(** * Outline extraction from PDF typography: a shallow embedding of
      [full_outline_extractor.py] and the properties of its three core
      functions, [analyze_document_styles], [extract_title] and
      [build_outline].

    Modelling choices.
    - A Python [str] is a [string] and the text is taken in the ASCII range:
      whitespace ([str.strip], the regular expression class [\s]) and case
      folding ([str.lower]) are the ones Python applies to these characters,
      and a code above 127 is neither a space nor a letter.
    - A font size is a finite float.  Every finite float is a rational, and
      [round] of a float without [ndigits] is the exact round-half-to-even of
      that rational, so sizes are [Q] and [round] is [py_round].
    - A [dict] and a [Counter] are association lists in insertion order,
      which is the order Python iterates them in; [sorted] is stable, and
      stays stable under [reverse=True].
    - [page.get_text("dict", flags)["blocks"]] is a field of the page, one
      block list per flag set the program asks for.
    - [doc[0]] on a document without pages raises [IndexError]:
      [extract_title] returns [None] there. *)

From Stdlib Require Import ZArith QArith List String Ascii Bool Lia.
From Stdlib Require Import Permutation Sorted.
Import ListNotations.

Open Scope string_scope.
Open Scope Z_scope.

(** ** Python string primitives *)

Module PyStr.

(** [str.isspace] on one character of the ASCII range: TAB, LF, VT, FF, CR,
    the four separators FS, GS, RS, US, and SPACE. *)
Definition is_space (c : ascii) : bool :=
  let n := nat_of_ascii c in
  ((9 <=? n)%nat && (n <=? 13)%nat) || ((28 <=? n)%nat && (n <=? 32)%nat).

Fixpoint lstrip (s : string) : string :=
  match s with
  | EmptyString => EmptyString
  | String c r => if is_space c then lstrip r else s
  end.

Definition is_empty (s : string) : bool :=
  match s with EmptyString => true | String _ _ => false end.

Fixpoint rstrip (s : string) : string :=
  match s with
  | EmptyString => EmptyString
  | String c r =>
      let r' := rstrip r in
      if is_space c && is_empty r' then EmptyString else String c r'
  end.

(** [s.strip()] *)
Definition strip (s : string) : string := rstrip (lstrip s).

Definition lower_char (c : ascii) : ascii :=
  let n := nat_of_ascii c in
  if (65 <=? n)%nat && (n <=? 90)%nat then ascii_of_nat (n + 32) else c.

(** [s.lower()] *)
Fixpoint lower (s : string) : string :=
  match s with
  | EmptyString => EmptyString
  | String c r => String (lower_char c) (lower r)
  end.

(** [sub in s] *)
Fixpoint contains (sub s : string) : bool :=
  match s with
  | EmptyString => prefix sub EmptyString
  | String _ r => prefix sub s || contains sub r
  end.

(** [s.replace(a, b)] for one-character [a] and [b]. *)
Fixpoint replace_char (a b : ascii) (s : string) : string :=
  match s with
  | EmptyString => EmptyString
  | String c r =>
      String (if Ascii.eqb c a then b else c) (replace_char a b r)
  end.

(** [re.sub(r'\s+', ' ', s)]: [in_ws] tells that the previous character
    belonged to a whitespace run that was already replaced. *)
Fixpoint collapse_from (in_ws : bool) (s : string) : string :=
  match s with
  | EmptyString => EmptyString
  | String c r =>
      if is_space c
      then if in_ws then collapse_from true r
           else String " " (collapse_from true r)
      else String c (collapse_from false r)
  end.

Definition collapse_ws (s : string) : string := collapse_from false s.

(** [sep.join(parts)] *)
Definition join (sep : string) (parts : list string) : string :=
  String.concat sep parts.

(** [c] occurs in [s]. *)
Fixpoint occurs (c : ascii) (s : string) : bool :=
  match s with
  | EmptyString => false
  | String d r => Ascii.eqb d c || occurs c r
  end.

Definition newline : ascii := "010"%char.
Definition space : ascii := " "%char.

End PyStr.

(** [round(x)] for a float [x]: the nearest integer, ties to the even one. *)
Definition py_round (x : Q) : Z :=
  let d := Z.pos (Qden x) in
  let f := Qnum x / d in
  let m := Qnum x mod d in
  match 2 * m ?= d with
  | Lt => f
  | Gt => f + 1
  | Eq => if Z.even f then f else f + 1
  end.

(** ** The document as the text layer reports it *)

Record Span := { text : string; size : Q; font : string }.

Record Line := { spans : list Span }.

(** [type = 0] is a text block; an image block has no lines. *)
Record Block := { type : Z; lines : list Line }.

Inductive TextFlags := TEXT_DEFAULT | TEXT_INHIBIT_SPACES.

Record Page := { get_text : TextFlags -> list Block }.

Definition Doc := list Page.

Definition StyleKey := (Z * bool)%type.

Definition style_key (span : Span) : StyleKey :=
  (py_round (size span), PyStr.contains "bold" (PyStr.lower (font span))).

Definition key_eqb (a b : StyleKey) : bool :=
  Z.eqb (fst a) (fst b) && Bool.eqb (snd a) (snd b).

(** ** Dictionaries in insertion order *)

Section Dict.
Context {V : Type}.

Fixpoint dict_get (k : StyleKey) (d : list (StyleKey * V)) : option V :=
  match d with
  | [] => None
  | (k', v) :: r => if key_eqb k k' then Some v else dict_get k r
  end.

(** [d[k] = v]: an existing key keeps its position. *)
Fixpoint dict_set (k : StyleKey) (v : V) (d : list (StyleKey * V))
  : list (StyleKey * V) :=
  match d with
  | [] => [(k, v)]
  | (k', v') :: r =>
      if key_eqb k k' then (k', v) :: r else (k', v') :: dict_set k v r
  end.

Definition keys (d : list (StyleKey * V)) : list StyleKey := map fst d.
End Dict.

(** [c[k] += 1] on a [Counter]. *)
Fixpoint counter_incr (k : StyleKey) (c : list (StyleKey * nat))
  : list (StyleKey * nat) :=
  match c with
  | [] => [(k, 1%nat)]
  | (k', n) :: r =>
      if key_eqb k k' then (k', S n) :: r else (k', n) :: counter_incr k r
  end.

(** ** [analyze_document_styles] *)

Definition count_span (styles : list (StyleKey * nat)) (span : Span) :=
  if (1 <? String.length (PyStr.strip (text span)))%nat
  then counter_incr (style_key span) styles
  else styles.

Definition count_line (styles : list (StyleKey * nat)) (line : Line) :=
  fold_left count_span (spans line) styles.

Definition count_block (styles : list (StyleKey * nat)) (block : Block) :=
  if type block =? 0 then fold_left count_line (lines block) styles
  else styles.

Definition count_page (styles : list (StyleKey * nat)) (page : Page) :=
  fold_left count_block (get_text page TEXT_INHIBIT_SPACES) styles.

(** The [Counter] after the loop over [doc[1:]]. *)
Definition style_counter (doc : Doc) : list (StyleKey * nat) :=
  fold_left count_page (tl doc) [].

(** [sorted(l, key=lambda x: x[0], reverse=True)]: the stable sort by
    decreasing size.  [insert_desc] puts [x] in front of the first element
    that is not strictly larger, so equal sizes keep their input order. *)
Fixpoint insert_desc (x : StyleKey) (l : list StyleKey) : list StyleKey :=
  match l with
  | [] => [x]
  | y :: r => if fst x <? fst y then y :: insert_desc x r else x :: l
  end.

Fixpoint sorted_desc (l : list StyleKey) : list StyleKey :=
  match l with
  | [] => []
  | x :: r => insert_desc x (sorted_desc r)
  end.

Definition heading_levels : list string := ["H1"; "H2"; "H3"].

Fixpoint enumerate {A : Type} (start : nat) (l : list A) : list (nat * A) :=
  match l with
  | [] => []
  | x :: r => (start, x) :: enumerate (S start) r
  end.

Definition assign_level (style_map : list (StyleKey * string))
  (p : nat * StyleKey) : list (StyleKey * string) :=
  let (i, style) := p in
  if (i <? List.length heading_levels)%nat
  then dict_set style (nth i heading_levels "") style_map
  else style_map.

Definition sorted_styles (doc : Doc) : list StyleKey :=
  sorted_desc (keys (style_counter doc)).

Definition final_heading_styles (doc : Doc) : list StyleKey :=
  let s := sorted_styles doc in
  if (2 <? List.length s)%nat then tl s else s.

Definition analyze_document_styles (doc : Doc) : list (StyleKey * string) :=
  match style_counter doc with
  | [] => []
  | _ :: _ =>
      fold_left assign_level (enumerate 0 (final_heading_styles doc)) []
  end.

(** ** [extract_title] *)

Definition max_span (max_size : Z) (span : Span) : Z :=
  if max_size <? py_round (size span) then py_round (size span)
  else max_size.

Definition max_line (max_size : Z) (line : Line) : Z :=
  fold_left max_span (spans line) max_size.

Definition max_block (max_size : Z) (block : Block) : Z :=
  if type block =? 0 then fold_left max_line (lines block) max_size
  else max_size.

(** The text of one line of the first page at [max_size]. *)
Definition title_line_text (max_size : Z) (line : Line) : string :=
  PyStr.strip
    (PyStr.join ""
       (map text
          (filter (fun span => py_round (size span) =? max_size)
             (spans line)))).

Definition title_line (max_size : Z) (title_parts : list string)
  (line : Line) : list string :=
  let line_text := title_line_text max_size line in
  if PyStr.is_empty line_text then title_parts
  else title_parts ++ [line_text].

Definition title_block (max_size : Z) (title_parts : list string)
  (block : Block) : list string :=
  if type block =? 0
  then fold_left (title_line max_size) (lines block) title_parts
  else title_parts.

Definition finish_title (title_parts : list string) : string :=
  PyStr.strip
    (PyStr.replace_char PyStr.newline PyStr.space
       (PyStr.join " " title_parts)).

Definition extract_title (doc : Doc) : option string :=
  match doc with
  | [] => None
  | first_page :: _ =>
      let blocks := get_text first_page TEXT_DEFAULT in
      let max_size := fold_left max_block blocks 0 in
      if max_size =? 0 then Some "Untitled"
      else Some (finish_title (fold_left (title_block max_size) blocks []))
  end.

(** ** [build_outline] *)

Record OutlineEntry :=
  { level : string; entry_text : string; page : nat }.

Definition line_text (line : Line) : string :=
  PyStr.collapse_ws
    (PyStr.strip
       (PyStr.join " " (map (fun s => PyStr.strip (text s)) (spans line)))).

(** [outline[-1]['text'] += t] *)
Fixpoint append_to_last (t : string) (outline : list OutlineEntry)
  : list OutlineEntry :=
  match outline with
  | [] => []
  | e :: r =>
      match r with
      | [] => [ {| level := level e;
                   entry_text := entry_text e ++ t;
                   page := page e |} ]
      | _ :: _ => e :: append_to_last t r
      end
  end.

(** [outline[-1]['text']] when the outline is not empty. *)
Definition last_text (outline : list OutlineEntry) : option string :=
  match rev outline with
  | [] => None
  | e :: _ => Some (entry_text e)
  end.

(** [style_map[k]] under the guard [k in heading_style_keys]. *)
Definition dict_index (k : StyleKey) (d : list (StyleKey * string)) : string :=
  match dict_get k d with Some v => v | None => "" end.

(** [outline and "overview" in outline[-1]['text'].lower()] *)
Definition follows_overview (outline : list OutlineEntry) : bool :=
  match last_text outline with
  | None => false
  | Some t => PyStr.contains "overview" (PyStr.lower t)
  end.

(** [not outline or outline[-1]["text"] != t] *)
Definition differs_from_last (outline : list OutlineEntry) (t : string)
  : bool :=
  match last_text outline with
  | None => true
  | Some t' => negb (String.eqb t' t)
  end.

(** The body of the innermost loop: one line of a text block. *)
Definition outline_line (heading_style_keys : list StyleKey)
  (style_map : list (StyleKey * string)) (page_num : nat)
  (outline : list OutlineEntry) (line : Line) : list OutlineEntry :=
  match spans line with
  | [] => outline
  | span :: _ =>
      let line_text := line_text line in
      if (String.length line_text <? 3)%nat then outline
      else
        let style_key := style_key span in
        if existsb (key_eqb style_key) heading_style_keys then
          let level := dict_index style_key style_map in
          if String.eqb (PyStr.lower line_text) "syllabus"
             && follows_overview outline
          then append_to_last line_text outline
          else
            let entry := {| level := level;
                            entry_text := line_text;
                            page := page_num |} in
            if differs_from_last outline (entry_text entry)
            then outline ++ [entry]
            else outline
        else outline
  end.

Definition outline_block (heading_style_keys : list StyleKey)
  (style_map : list (StyleKey * string)) (page_num : nat)
  (outline : list OutlineEntry) (block : Block) : list OutlineEntry :=
  if type block =? 0
  then fold_left (outline_line heading_style_keys style_map page_num)
         (lines block) outline
  else outline.

Definition outline_page (heading_style_keys : list StyleKey)
  (style_map : list (StyleKey * string))
  (outline : list OutlineEntry) (p : nat * Page) : list OutlineEntry :=
  let (page_num, page) := p in
  fold_left (outline_block heading_style_keys style_map page_num)
    (get_text page TEXT_DEFAULT) outline.

(** [build_outline] with the set [heading_style_keys] laid out as a given
    list: a Python [set] fixes membership, not an order. *)
Definition build_outline_from (heading_style_keys : list StyleKey)
  (doc : Doc) (style_map : list (StyleKey * string)) : list OutlineEntry :=
  match style_map with
  | [] => []
  | _ :: _ =>
      fold_left (outline_page heading_style_keys style_map)
        (enumerate 1 doc) []
  end.

Definition build_outline (doc : Doc) (style_map : list (StyleKey * string))
  : list OutlineEntry :=
  build_outline_from (keys style_map) doc style_map.

(** ** [process_pdf], up to opening the file and writing the JSON *)

Record Result := { title : string; outline : list OutlineEntry }.

Definition process_from (heading_style_keys : list StyleKey) (doc : Doc)
  : option Result :=
  match extract_title doc with
  | None => None
  | Some t =>
      let style_map := analyze_document_styles doc in
      Some {| title := t;
              outline := build_outline_from heading_style_keys doc style_map |}
  end.

Definition process_pdf (doc : Doc) : option Result :=
  process_from (keys (analyze_document_styles doc)) doc.

(** ** Notions used in the statements *)

Definition substantial (span : Span) : bool :=
  (1 <? String.length (PyStr.strip (text span)))%nat.

Definition text_lines_of (blocks : list Block) : list Line :=
  flat_map (fun b => if type b =? 0 then lines b else []) blocks.

(** The spans of pages 2..N that pass the length test, in scan order. *)
Definition substantial_spans (doc : Doc) : list Span :=
  flat_map
    (fun page =>
       flat_map (fun line => filter substantial (spans line))
         (text_lines_of (get_text page TEXT_INHIBIT_SPACES)))
    (tl doc).

Definition observed_styles (doc : Doc) : list StyleKey :=
  map style_key (substantial_spans doc).

(** The distinct styles: the keys of the [Counter]. *)
Definition distinct_styles (doc : Doc) : list StyleKey :=
  keys (style_counter doc).

(** Every element is at most as large as the head. *)
Definition head_largest (l : list StyleKey) : Prop :=
  match l with
  | [] => True
  | s0 :: _ => forall k, In k l -> fst k <= fst s0
  end.

(** The spans of the text blocks of a page, in document order. *)
Definition text_spans_of (blocks : list Block) : list Span :=
  flat_map spans (text_lines_of blocks).

Definition rounded_size (span : Span) : Z := py_round (size span).

(** The title as the specification words it: the largest rounded size of
    the page, one part per line made of the spans at that size, the parts
    joined, newlines replaced, the whole stripped. *)
Module TitleSpec.

Definition max_size (blocks : list Block) : option Z :=
  match map rounded_size (text_spans_of blocks) with
  | [] => None
  | x :: r => Some (fold_right Z.max x r)
  end.

Definition line_part (m : Z) (line : Line) : string :=
  PyStr.strip
    (String.concat ""
       (map text (filter (fun s => rounded_size s =? m) (spans line)))).

Definition parts (m : Z) (blocks : list Block) : list string :=
  filter (fun t => negb (PyStr.is_empty t))
    (map (line_part m) (text_lines_of blocks)).

Definition title (m : Z) (blocks : list Block) : string :=
  PyStr.strip
    (PyStr.replace_char PyStr.newline PyStr.space
       (String.concat " " (parts m blocks))).

End TitleSpec.

(** C5 as it is worded: whenever page 1 has a text block with spans, the
    title is the one assembled at the largest rounded size of the page. *)
Definition title_is_assembled (doc : Doc) : Prop :=
  forall first rest m,
    doc = first :: rest ->
    TitleSpec.max_size (get_text first TEXT_DEFAULT) = Some m ->
    extract_title doc
    = Some (TitleSpec.title m (get_text first TEXT_DEFAULT)).

(** The lines of the text blocks of the whole document with their page
    numbers, in scan order. *)
Definition numbered_lines (doc : Doc) : list (nat * Line) :=
  flat_map
    (fun p : nat * Page =>
       map (pair (fst p)) (text_lines_of (get_text (snd p) TEXT_DEFAULT)))
    (enumerate 1 doc).

(** The outline after the scan of the lines [ls], started from [outline]. *)
Definition scan (style_map : list (StyleKey * string))
  (ls : list (nat * Line)) (outline : list OutlineEntry)
  : list OutlineEntry :=
  fold_left
    (fun o (nl : nat * Line) =>
       outline_line (keys style_map) style_map (fst nl) o (snd nl))
    ls outline.

(** The style key of a line is the one of its first span. *)
Definition line_style_key (line : Line) : option StyleKey :=
  match spans line with
  | [] => None
  | span :: _ => Some (style_key span)
  end.

(** The entry [e] after [outline[-1]['text'] += t]. *)
Definition merged (e : OutlineEntry) (t : string) : OutlineEntry :=
  {| level := level e; entry_text := entry_text e ++ t; page := page e |}.




(** ** Notions used in the further properties *)

(** The count the counter [c] holds for [k]: [c[k]], 0 for a missing key. *)
Definition counted (k : StyleKey) (c : list (StyleKey * nat)) : nat :=
  match dict_get k c with Some n => n | None => O end.

(** How many times [k] occurs in [l]. *)
Definition occurrences (k : StyleKey) (l : list StyleKey) : nat :=
  List.length (filter (key_eqb k) l).

(** The elements of [l] without repetition, each at its first occurrence. *)
Fixpoint first_occurrences (l : list StyleKey) : list StyleKey :=
  match l with
  | [] => []
  | k :: r => k :: filter (fun x => negb (key_eqb x k)) (first_occurrences r)
  end.

(** The ranking without its head when it has more than two elements. *)
Definition drop_outlier (l : list StyleKey) : list StyleKey :=
  if (2 <? List.length l)%nat then tl l else l.

(** The string is empty or made of whitespace only. *)
Fixpoint blank (s : string) : bool :=
  match s with
  | EmptyString => true
  | String c r => PyStr.is_space c && blank r
  end.

(** The line passes the three tests that lead to the heading branch: it has
    spans, its text has at least 3 characters, and the style of its first
    span is a key of the map. *)
Definition candidate (style_map : list (StyleKey * string)) (line : Line)
  : bool :=
  match spans line with
  | [] => false
  | span :: _ =>
      negb (String.length (line_text line) <? 3)%nat
      && existsb (key_eqb (style_key span)) (keys style_map)
  end.

(** The pages of the entries do not decrease and none exceeds [b]. *)
Definition pages_upto (b : nat) (o : list OutlineEntry) : Prop :=
  StronglySorted le (map page o) /\ Forall (fun e => (page e <= b)%nat) o.

(** Every whitespace character of [s] is a plain space. *)
Definition spaces_only (s : string) : Prop :=
  forall c, PyStr.occurs c s = true -> PyStr.is_space c = true ->
            c = PyStr.space.

(** ** Sample documents *)

Definition sample_span (t : string) (s : Q) (f : string) : Span :=
  {| text := t; size := s; font := f |}.

Definition sample_page (ls : list (list Span)) : Page :=
  {| get_text := fun _ =>
       [ {| type := 0; lines := map (fun l => {| spans := l |}) ls |} ] |}.

(** A cover page and a second page with four styles. *)
Definition four_styles_doc : Doc :=
  [ sample_page [[sample_span "Annual Report" 24 "Helvetica-Bold"]];
    sample_page [[sample_span "Part One" 20 "Helvetica"];
                 [sample_span "Chapter" 16 "Helvetica-Bold"];
                 [sample_span "Section" 14 "Helvetica-Bold"];
                 [sample_span "Some body text." 10 "Helvetica"]] ].

(** A cover page and a second page with two styles. *)
Definition two_styles_doc : Doc :=
  [ sample_page [[sample_span "Annual Report" 24 "Helvetica-Bold"]];
    sample_page [[sample_span "Some body text." 10 "Helvetica"];
                 [sample_span "Chapter" 16 "Helvetica-Bold"];
                 [sample_span "More body text." 10 "Helvetica"]] ].

(** A first page whose only span is rendered below half a point. *)
Definition tiny_font_doc : Doc :=
  [ sample_page [[sample_span "Hello" (2 # 5) "Helvetica"]] ].

(** A first page whose largest text reads "Untitled". *)
Definition untitled_report_doc : Doc :=
  [ sample_page [[sample_span "Untitled" 12 "Helvetica-Bold"];
                 [sample_span "a draft" 9 "Helvetica"]] ].

(** A first page with a two-line title and a smaller subtitle. *)
Definition report_doc : Doc :=
  [ sample_page [[sample_span "Annual" 24 "Helvetica-Bold";
                  sample_span " Report" 24 "Helvetica"];
                 [sample_span "of the board" 12 "Helvetica"];
                 [sample_span "2024 " 24 "Helvetica-Bold"]] ].

(** A first page that holds one image and no text. *)
Definition image_only_doc : Doc :=
  [ {| get_text := fun _ => [ {| type := 1; lines := [] |} ] |} ].

(** A cover page, then a heading split over two lines and some text. *)
Definition overview_doc : Doc :=
  [ sample_page [[sample_span "Course Handbook" 24 "Helvetica-Bold"]];
    sample_page [[sample_span "1. Course Overview" 16 "Helvetica-Bold"];
                 [sample_span "Syllabus" 16 "Helvetica-Bold"];
                 [sample_span "The course runs for ten weeks." 10
                    "Helvetica"]] ].


(** The same heading printed twice in a row. *)
Definition repeated_heading_doc : Doc :=
  [ sample_page [[sample_span "Course Handbook" 24 "Helvetica-Bold"]];
    sample_page [[sample_span "Introduction" 16 "Helvetica-Bold"];
                 [sample_span "Introduction" 16 "Helvetica-Bold"];
                 [sample_span "The course runs for ten weeks." 10
                    "Helvetica"]] ].

(** A document that is one page long. *)
Definition single_page_doc : Doc :=
  [ sample_page [[sample_span "Meeting Notes" 18 "Helvetica-Bold"];
                 [sample_span "Agenda and decisions" 11 "Helvetica"]] ].

(** A first page whose largest span holds blanks only. *)
Definition blank_banner_doc : Doc :=
  [ sample_page [[sample_span "   " 30 "Helvetica"];
                 [sample_span "Quarterly figures" 12 "Helvetica"]] ].

(** * Properties *)

(** ** The primitives on concrete values *)

Example py_round_ties :
  map py_round [1 # 2; 3 # 2; 5 # 2; -1 # 2; -3 # 2; 2 # 5; -7 # 4; 23 # 2]%Q
  = [0; 2; 2; 0; -2; 0; -2; 12].
Proof. reflexivity. Qed.

Example strip_and_collapse :
  PyStr.strip "  1.  Course   Overview  " = "1.  Course   Overview"
  /\ PyStr.collapse_ws "1.  Course   Overview" = "1. Course Overview"
  /\ PyStr.lower "Syllabus" = "syllabus"
  /\ PyStr.contains "bold" (PyStr.lower "Helvetica-BoldOblique") = true
  /\ PyStr.contains "bold" (PyStr.lower "Helvetica-Oblique") = false.
Proof. repeat split; reflexivity. Qed.

Example sorted_desc_stable :
  sorted_desc [(10, false); (16, true); (12, false); (16, false); (12, true)]
  = [(16, true); (16, false); (12, false); (12, true); (10, false)].
Proof. reflexivity. Qed.

Example process_four_styles :
  process_pdf four_styles_doc
  = Some {| title := "Annual Report";
            outline :=
              [ {| level := "H1"; entry_text := "Chapter"; page := 2 |};
                {| level := "H2"; entry_text := "Section"; page := 2 |};
                {| level := "H3"; entry_text := "Some body text.";
                   page := 2 |} ] |}.
Proof. reflexivity. Qed.

(** ** Keys, counters and dictionaries *)

Lemma key_eqb_eq (a b : StyleKey) : key_eqb a b = true <-> a = b.
Proof.
  destruct a as [x p], b as [y q]; unfold key_eqb; simpl.
  rewrite andb_true_iff, Z.eqb_eq, Bool.eqb_true_iff.
  split; [intros [-> ->]; reflexivity | intros H; inversion H; auto].
Qed.

Lemma key_eqb_refl (a : StyleKey) : key_eqb a a = true.
Proof. apply key_eqb_eq; reflexivity. Qed.

Lemma key_eqb_neq (a b : StyleKey) : a <> b -> key_eqb a b = false.
Proof.
  intros H; destruct (key_eqb a b) eqn:E; [|reflexivity].
  apply key_eqb_eq in E; contradiction.
Qed.

Lemma existsb_key_In (k : StyleKey) (l : list StyleKey) :
  existsb (key_eqb k) l = true <-> In k l.
Proof.
  rewrite existsb_exists; split.
  - intros [x [Hx E]]; apply key_eqb_eq in E; subst; exact Hx.
  - intros H; exists k; split; [exact H | apply key_eqb_refl].
Qed.

Lemma counter_incr_keys (k : StyleKey) (c : list (StyleKey * nat)) :
  keys (counter_incr k c)
  = if existsb (key_eqb k) (keys c) then keys c else (keys c ++ [k])%list.
Proof.
  unfold keys; induction c as [|[k' n] r IH]; simpl; [reflexivity|].
  destruct (key_eqb k k') eqn:E; simpl; [reflexivity|].
  rewrite IH.
  destruct (existsb (key_eqb k) (map fst r)); reflexivity.
Qed.

Lemma counter_incr_In (k k' : StyleKey) (c : list (StyleKey * nat)) :
  In k' (keys (counter_incr k c)) <-> k' = k \/ In k' (keys c).
Proof.
  rewrite counter_incr_keys.
  destruct (existsb (key_eqb k) (keys c)) eqn:E.
  - apply existsb_key_In in E; split; [auto | intros [->|H]; assumption].
  - rewrite in_app_iff; simpl; intuition congruence.
Qed.

Lemma counter_incr_NoDup (k : StyleKey) (c : list (StyleKey * nat)) :
  NoDup (keys c) -> NoDup (keys (counter_incr k c)).
Proof.
  intros H; rewrite counter_incr_keys.
  destruct (existsb (key_eqb k) (keys c)) eqn:E; [exact H|].
  apply NoDup_app; [exact H | repeat constructor; intros [] | ].
  intros x Hx [<-|[]].
  apply existsb_key_In in Hx; congruence.
Qed.

(** ** The spans the profiler counts *)

Lemma fold_left_flat_map {A B C : Type} (f : A -> C -> A) (g : B -> list C)
  (l : list B) (a : A) :
  fold_left f (flat_map g l) a
  = fold_left (fun acc x => fold_left f (g x) acc) l a.
Proof.
  revert a; induction l as [|x l IH]; intros a; simpl; [reflexivity|].
  rewrite fold_left_app; apply IH.
Qed.

Lemma fold_left_ext {A B : Type} (f g : A -> B -> A) (l : list B) (a : A) :
  (forall acc x, f acc x = g acc x) -> fold_left f l a = fold_left g l a.
Proof.
  intros H; revert a; induction l as [|x l IH]; intros a; simpl;
    [reflexivity | rewrite H; apply IH].
Qed.

Lemma fold_left_filter {A B : Type} (f : A -> B -> A) (p : B -> bool)
  (l : list B) (a : A) :
  fold_left f (filter p l) a
  = fold_left (fun acc x => if p x then f acc x else acc) l a.
Proof.
  revert a; induction l as [|x l IH]; intros a; simpl; [reflexivity|].
  destruct (p x); simpl; apply IH.
Qed.

Lemma count_blocks_flat (blocks : list Block) (c : list (StyleKey * nat)) :
  fold_left count_block blocks c
  = fold_left count_line (text_lines_of blocks) c.
Proof.
  unfold text_lines_of; rewrite fold_left_flat_map.
  apply fold_left_ext; intros acc b; unfold count_block.
  destruct (type b =? 0); reflexivity.
Qed.

Lemma style_counter_flat (doc : Doc) :
  style_counter doc
  = fold_left (fun c s => counter_incr (style_key s) c)
      (substantial_spans doc) [].
Proof.
  unfold style_counter, substantial_spans.
  rewrite fold_left_flat_map; apply fold_left_ext; intros c p.
  unfold count_page; rewrite count_blocks_flat, fold_left_flat_map.
  apply fold_left_ext; intros c' l.
  unfold count_line; rewrite fold_left_filter.
  apply fold_left_ext; intros c'' s; reflexivity.
Qed.

Lemma counter_fold_keys (l : list Span) (c : list (StyleKey * nat)) :
  NoDup (keys c) ->
  NoDup (keys (fold_left (fun c s => counter_incr (style_key s) c) l c))
  /\ forall k,
      In k (keys (fold_left (fun c s => counter_incr (style_key s) c) l c))
      <-> In k (keys c) \/ In k (map style_key l).
Proof.
  revert c; induction l as [|s l IH]; intros c H; simpl.
  - split; [exact H | intros k; tauto].
  - destruct (IH (counter_incr (style_key s) c)) as [N I];
      [apply counter_incr_NoDup; exact H|].
    split; [exact N|].
    intros k; rewrite I, counter_incr_In; intuition auto.
Qed.

Lemma distinct_styles_NoDup (doc : Doc) : NoDup (distinct_styles doc).
Proof.
  unfold distinct_styles; rewrite style_counter_flat.
  apply counter_fold_keys; constructor.
Qed.

Lemma distinct_styles_observed (doc : Doc) (k : StyleKey) :
  In k (distinct_styles doc) <-> In k (observed_styles doc).
Proof.
  unfold distinct_styles, observed_styles; rewrite style_counter_flat.
  destruct (counter_fold_keys (substantial_spans doc) []) as [_ I];
    [constructor|].
  rewrite I; simpl; tauto.
Qed.

(** ** The stable sort by decreasing size *)

Lemma insert_desc_perm (x : StyleKey) (l : list StyleKey) :
  Permutation (insert_desc x l) (x :: l).
Proof.
  induction l as [|y r IH]; simpl; [reflexivity|].
  destruct (fst x <? fst y); [|reflexivity].
  rewrite IH; apply perm_swap.
Qed.

Lemma sorted_desc_perm (l : list StyleKey) : Permutation (sorted_desc l) l.
Proof.
  induction l as [|x r IH]; simpl; [reflexivity|].
  rewrite insert_desc_perm, IH; reflexivity.
Qed.

Lemma insert_desc_head (x : StyleKey) (l : list StyleKey) :
  head_largest l -> head_largest (insert_desc x l).
Proof.
  destruct l as [|y r]; simpl.
  - intros _ k [<-|[]]; lia.
  - intros H; destruct (fst x <? fst y) eqn:E; simpl.
    + intros k [<-|Hk]; [lia|].
      apply (Permutation_in _ (insert_desc_perm x r)) in Hk.
      destruct Hk as [<-|Hk]; [apply Z.ltb_lt in E; lia|].
      apply H; right; exact Hk.
    + apply Z.ltb_ge in E.
      intros k [<-|Hk]; [lia|].
      specialize (H k Hk); lia.
Qed.

Lemma sorted_desc_head (l : list StyleKey) : head_largest (sorted_desc l).
Proof.
  induction l as [|x r IH]; simpl; [exact I|].
  apply insert_desc_head; exact IH.
Qed.

Lemma insert_desc_sorted (x : StyleKey) (l : list StyleKey) :
  StronglySorted (fun a b => fst b <= fst a) l ->
  StronglySorted (fun a b => fst b <= fst a) (insert_desc x l).
Proof.
  induction 1 as [|y r S IH F]; simpl.
  - repeat constructor.
  - destruct (fst x <? fst y) eqn:E.
    + constructor; [exact IH|].
      apply Forall_forall; intros k Hk.
      apply (Permutation_in _ (insert_desc_perm x r)) in Hk.
      destruct Hk as [<-|Hk]; [apply Z.ltb_lt in E; lia|].
      rewrite Forall_forall in F; apply F; exact Hk.
    + apply Z.ltb_ge in E.
      constructor; [constructor; assumption|].
      constructor; [exact E|].
      eapply Forall_impl; [|exact F]; simpl; intros; lia.
Qed.

Lemma sorted_desc_sorted (l : list StyleKey) :
  StronglySorted (fun a b => fst b <= fst a) (sorted_desc l).
Proof.
  induction l as [|x r IH]; simpl; [constructor|].
  apply insert_desc_sorted; exact IH.
Qed.

Lemma sorted_styles_perm (doc : Doc) :
  Permutation (sorted_styles doc) (distinct_styles doc).
Proof. apply sorted_desc_perm. Qed.

Lemma sorted_styles_NoDup (doc : Doc) : NoDup (sorted_styles doc).
Proof.
  eapply Permutation_NoDup; [|apply distinct_styles_NoDup].
  symmetry; apply sorted_styles_perm.
Qed.

Lemma sorted_styles_length (doc : Doc) :
  List.length (sorted_styles doc) = List.length (distinct_styles doc).
Proof. apply Permutation_length, sorted_styles_perm. Qed.

(** ** Assigning the levels *)

Lemma assign_beyond (l : list StyleKey) (i : nat)
  (acc : list (StyleKey * string)) :
  (3 <= i)%nat -> fold_left assign_level (enumerate i l) acc = acc.
Proof.
  revert i acc; induction l as [|x r IH]; intros i acc H; simpl;
    [reflexivity|].
  destruct (Nat.ltb_spec i 3); [lia|].
  apply IH; lia.
Qed.

Lemma assign_levels_combine (l : list StyleKey) :
  NoDup l ->
  fold_left assign_level (enumerate 0 l) [] = combine l heading_levels.
Proof.
  intros N.
  destruct l as [|a [|b [|c r]]]; try reflexivity.
  - inversion N as [|? ? Ha _]; subst.
    assert (E : key_eqb b a = false)
      by (apply key_eqb_neq; intros ->; apply Ha; left; reflexivity).
    simpl; rewrite E; reflexivity.
  - inversion N as [|? ? Ha Nb]; subst.
    inversion Nb as [|? ? Hb _]; subst.
    assert (E1 : key_eqb b a = false)
      by (apply key_eqb_neq; intros ->; apply Ha; left; reflexivity).
    assert (E2 : key_eqb c a = false)
      by (apply key_eqb_neq; intros ->; apply Ha; right; left; reflexivity).
    assert (E3 : key_eqb c b = false)
      by (apply key_eqb_neq; intros ->; apply Hb; left; reflexivity).
    simpl; rewrite E1; simpl; rewrite E2, E3; simpl.
    rewrite assign_beyond by lia.
    destruct r; reflexivity.
Qed.

Lemma final_heading_styles_NoDup (doc : Doc) :
  NoDup (final_heading_styles doc).
Proof.
  unfold final_heading_styles.
  pose proof (sorted_styles_NoDup doc) as N.
  destruct (2 <? List.length (sorted_styles doc))%nat; [|exact N].
  destruct (sorted_styles doc); [exact N | inversion N; assumption].
Qed.

(** The map the profiler returns, as one equation. *)
Lemma analyze_document_styles_eq (doc : Doc) :
  analyze_document_styles doc
  = combine (final_heading_styles doc) heading_levels.
Proof.
  unfold analyze_document_styles.
  destruct (style_counter doc) as [|p c] eqn:E.
  - unfold final_heading_styles, sorted_styles; rewrite E; reflexivity.
  - apply assign_levels_combine, final_heading_styles_NoDup.
Qed.

Lemma dict_get_not_in {V : Type} (k : StyleKey) (d : list (StyleKey * V)) :
  ~ In k (keys d) -> dict_get k d = None.
Proof.
  unfold keys; induction d as [|[k' v] r IH]; simpl; intros H;
    [reflexivity|].
  rewrite key_eqb_neq; [apply IH; tauto | intros ->; tauto].
Qed.

Lemma dict_get_in {V : Type} (k : StyleKey) (d : list (StyleKey * V)) :
  In k (keys d) -> exists v, dict_get k d = Some v.
Proof.
  unfold keys; induction d as [|[k' v] r IH]; simpl; intros H; [tauto|].
  destruct (key_eqb k k') eqn:E; [eauto|].
  apply IH; destruct H as [->|H]; [|exact H].
  rewrite key_eqb_refl in E; discriminate.
Qed.

(** ** The style profiler *)

Lemma final_heading_styles_in (doc : Doc) (k : StyleKey) :
  In k (final_heading_styles doc) -> In k (distinct_styles doc).
Proof.
  unfold final_heading_styles; intros H.
  apply (Permutation_in _ (sorted_styles_perm doc)).
  destruct (2 <? List.length (sorted_styles doc))%nat; [|exact H].
  destruct (sorted_styles doc); [exact H | right; exact H].
Qed.

(** C1.  With more than two distinct styles on pages 2..N, the ranking
    holds exactly the distinct styles in non-increasing order of size; its
    first style, which has the largest size of all, is left out of the
    returned map; the second of the ranking, the largest of the others, is
    mapped to H1, the third to H2, and the fourth, when there is one, to
    H3. *)
Theorem outlier_rejection (doc : Doc) :
  (2 < List.length (distinct_styles doc))%nat ->
  exists s0 s1 s2 rest,
    sorted_styles doc = s0 :: s1 :: s2 :: rest
    /\ Permutation (s0 :: s1 :: s2 :: rest) (distinct_styles doc)
    /\ StronglySorted (fun a b => fst b <= fst a) (s0 :: s1 :: s2 :: rest)
    /\ fst s1 <= fst s0
    /\ fst s2 <= fst s1
    /\ (forall k, In k rest -> fst k <= fst s2)
    /\ (forall k, In k (distinct_styles doc) -> fst k <= fst s0)
    /\ ~ In s0 (keys (analyze_document_styles doc))
    /\ dict_get s0 (analyze_document_styles doc) = None
    /\ dict_get s1 (analyze_document_styles doc) = Some "H1"
    /\ dict_get s2 (analyze_document_styles doc) = Some "H2"
    /\ (forall s3 rest', rest = s3 :: rest' ->
          dict_get s3 (analyze_document_styles doc) = Some "H3").
Proof.
  intros L.
  pose proof (sorted_styles_NoDup doc) as N.
  pose proof (sorted_desc_head (distinct_styles doc)) as Hd.
  change (head_largest (sorted_styles doc)) in Hd.
  pose proof (sorted_styles_perm doc) as P.
  pose proof (sorted_desc_sorted (distinct_styles doc)) as S.
  change (sorted_desc (distinct_styles doc)) with (sorted_styles doc) in S.
  rewrite analyze_document_styles_eq; unfold final_heading_styles.
  rewrite <- sorted_styles_length in L.
  destruct (sorted_styles doc) as [|s0 [|s1 [|s2 rest]]]; simpl in L;
    try lia.
  exists s0, s1, s2, rest.
  inversion N as [|? ? N0 N1]; subst.
  inversion N1 as [|? ? N10 N2]; subst.
  inversion N2 as [|? ? N20 _]; subst.
  assert (A0 : ~ In s0 (keys (combine (s1 :: s2 :: rest) heading_levels))).
  { unfold keys; intros H; apply in_map_iff in H.
    destruct H as [[k v] [E H]]; simpl in E; subst k.
    apply in_combine_l in H; contradiction. }
  split; [reflexivity|].
  split; [exact P|].
  split; [exact S|].
  inversion S as [|? ? S1 F0]; subst.
  inversion S1 as [|? ? S2 F1]; subst.
  inversion S2 as [|? ? _ F2]; subst.
  split; [inversion F0; assumption|].
  split; [inversion F1; assumption|].
  split; [rewrite Forall_forall in F2; exact F2|].
  split.
  { intros k Hk; apply Hd.
    apply (Permutation_in _ (Permutation_sym P)); exact Hk. }
  split; [exact A0|].
  split; [apply dict_get_not_in; exact A0|].
  simpl; rewrite key_eqb_refl.
  split; [reflexivity|].
  rewrite (key_eqb_neq s2 s1), key_eqb_refl
    by (intros ->; apply N10; left; reflexivity).
  split; [reflexivity|].
  intros s3 rest' ->; simpl.
  rewrite (key_eqb_neq s3 s1), (key_eqb_neq s3 s2), key_eqb_refl;
    [reflexivity | |].
  - intros ->; apply N20; left; reflexivity.
  - intros ->; apply N10; right; left; reflexivity.
Qed.

Lemma outlier_rejection_witness :
  (2 < List.length (distinct_styles four_styles_doc))%nat
  /\ exists s0 s1 s2 rest,
      sorted_styles four_styles_doc = s0 :: s1 :: s2 :: rest
      /\ Permutation (s0 :: s1 :: s2 :: rest)
           (distinct_styles four_styles_doc)
      /\ StronglySorted (fun a b => fst b <= fst a)
           (s0 :: s1 :: s2 :: rest)
      /\ fst s1 <= fst s0
      /\ fst s2 <= fst s1
      /\ (forall k, In k rest -> fst k <= fst s2)
      /\ (forall k, In k (distinct_styles four_styles_doc) ->
            fst k <= fst s0)
      /\ ~ In s0 (keys (analyze_document_styles four_styles_doc))
      /\ dict_get s0 (analyze_document_styles four_styles_doc) = None
      /\ dict_get s1 (analyze_document_styles four_styles_doc) = Some "H1"
      /\ dict_get s2 (analyze_document_styles four_styles_doc) = Some "H2"
      /\ (forall s3 rest', rest = s3 :: rest' ->
            dict_get s3 (analyze_document_styles four_styles_doc)
            = Some "H3").
Proof.
  assert (L : (2 < List.length (distinct_styles four_styles_doc))%nat)
    by (vm_compute; lia).
  split; [exact L | exact (outlier_rejection four_styles_doc L)].
Defined.

(** C4.  With at most two distinct styles no style is rejected: the map has
    as many entries as there are distinct styles and its keys are the whole
    ranking; one style gives the single entry H1, two styles give H1 for the
    larger (or first seen, at equal size) and H2 for the other; no style is
    mapped to H3. *)
Theorem no_rejection_up_to_two (doc : Doc) :
  (List.length (distinct_styles doc) <= 2)%nat ->
  List.length (analyze_document_styles doc)
  = List.length (distinct_styles doc)
  /\ keys (analyze_document_styles doc) = sorted_styles doc
  /\ (List.length (distinct_styles doc) = 1%nat ->
      exists a, distinct_styles doc = [a]
                /\ analyze_document_styles doc = [(a, "H1")])
  /\ (List.length (distinct_styles doc) = 2%nat ->
      exists a b, Permutation [a; b] (distinct_styles doc)
                  /\ fst b <= fst a
                  /\ analyze_document_styles doc = [(a, "H1"); (b, "H2")])
  /\ (forall k, dict_get k (analyze_document_styles doc) <> Some "H3").
Proof.
  intros L.
  pose proof (sorted_styles_perm doc) as P.
  pose proof (sorted_desc_head (distinct_styles doc)) as Hd.
  change (head_largest (sorted_styles doc)) in Hd.
  rewrite analyze_document_styles_eq; unfold final_heading_styles.
  rewrite <- sorted_styles_length in *.
  destruct (sorted_styles doc) as [|a [|b [|c r]]] eqn:E; simpl in L;
    try lia; simpl.
  - repeat split; try discriminate; intros; discriminate.
  - repeat split; try discriminate.
    + intros _; exists a; split; [|reflexivity].
      apply Permutation_length_1_inv, P.
    + intros k; destruct (key_eqb k a); discriminate.
  - repeat split; try discriminate.
    + intros _; exists a, b; repeat split; [exact P|].
      apply Hd; right; left; reflexivity.
    + intros k; destruct (key_eqb k a); [discriminate|].
      destruct (key_eqb k b); discriminate.
Qed.

Lemma no_rejection_up_to_two_witness :
  (List.length (distinct_styles two_styles_doc) <= 2)%nat
  /\ List.length (analyze_document_styles two_styles_doc) = 2%nat
  /\ analyze_document_styles two_styles_doc
     = [((16, true), "H1"); ((10, false), "H2")].
Proof.
  assert (L : (List.length (distinct_styles two_styles_doc) <= 2)%nat)
    by (vm_compute; lia).
  split; [exact L|].
  destruct (no_rejection_up_to_two two_styles_doc L) as [Hl _].
  split; [exact Hl | reflexivity].
Defined.

(** C8.  The returned map has at most three entries; every value is one of
    H1, H2, H3 and every key is the style of a substantial span of pages
    2..N. *)
Theorem style_map_bounds (doc : Doc) :
  (List.length (analyze_document_styles doc) <= 3)%nat
  /\ forall k v, In (k, v) (analyze_document_styles doc) ->
       (v = "H1" \/ v = "H2" \/ v = "H3")
       /\ exists span, In span (substantial_spans doc)
                       /\ style_key span = k.
Proof.
  rewrite analyze_document_styles_eq; split.
  - rewrite length_combine; simpl; lia.
  - intros k v H; split.
    + apply in_combine_r in H; simpl in H.
      intuition congruence.
    + apply in_combine_l, final_heading_styles_in in H.
      apply distinct_styles_observed in H.
      unfold observed_styles in H; apply in_map_iff in H.
      destruct H as [s [E Hs]]; exists s; auto.
Qed.

(** ** The title extractor *)

Lemma max_span_max (m : Z) (span : Span) :
  max_span m span = Z.max m (rounded_size span).
Proof.
  unfold max_span, rounded_size.
  destruct (Z.ltb_spec m (py_round (size span))); lia.
Qed.

Lemma fold_right_max_acc (a b : Z) (l : list Z) :
  fold_right Z.max (Z.max a b) l = Z.max b (fold_right Z.max a l).
Proof. induction l as [|x l IH]; simpl; [lia | rewrite IH; lia]. Qed.

Lemma max_spans_fold (l : list Span) (m : Z) :
  fold_left max_span l m = fold_right Z.max m (map rounded_size l).
Proof.
  revert m; induction l as [|s l IH]; intros m; simpl; [reflexivity|].
  rewrite IH, max_span_max, fold_right_max_acc; reflexivity.
Qed.

Lemma max_blocks_flat (blocks : list Block) (m : Z) :
  fold_left max_block blocks m
  = fold_right Z.max m (map rounded_size (text_spans_of blocks)).
Proof.
  rewrite <- max_spans_fold.
  unfold text_spans_of, text_lines_of.
  rewrite !fold_left_flat_map.
  apply fold_left_ext; intros acc b; unfold max_block.
  destruct (type b =? 0); reflexivity.
Qed.

Lemma fold_right_max_bounds (m : Z) (l : list Z) :
  m <= fold_right Z.max m l
  /\ (forall x, In x l -> x <= fold_right Z.max m l)
  /\ (fold_right Z.max m l = m \/ In (fold_right Z.max m l) l).
Proof.
  induction l as [|y l [A [B C]]]; simpl.
  - split; [lia|]; split; [tauto | left; reflexivity].
  - split; [lia|]; split.
    + intros x [<-|H]; [lia | specialize (B x H); lia].
    + destruct (Z.max_spec y (fold_right Z.max m l)) as [[_ ->]|[_ ->]];
        [destruct C; auto | auto].
Qed.

(** The loop over page 1 ends with 0 exactly when no span rounds to 1 or
    more. *)
Lemma max_size_zero_iff (blocks : list Block) :
  fold_left max_block blocks 0 = 0
  <-> forall span, In span (text_spans_of blocks) -> rounded_size span < 1.
Proof.
  rewrite max_blocks_flat.
  destruct (fold_right_max_bounds 0 (map rounded_size (text_spans_of blocks)))
    as [A [B C]].
  split.
  - intros E span H; rewrite E in B.
    specialize (B (rounded_size span) (in_map _ _ _ H)); lia.
  - intros H; destruct C as [C|C]; [exact C|].
    apply in_map_iff in C; destruct C as [s [E Hs]].
    specialize (H s Hs); lia.
Qed.

Lemma max_size_spec (blocks : list Block) (m : Z) :
  TitleSpec.max_size blocks = Some m -> 1 <= m ->
  fold_left max_block blocks 0 = m.
Proof.
  unfold TitleSpec.max_size; rewrite max_blocks_flat.
  destruct (map rounded_size (text_spans_of blocks)) as [|x r];
    [discriminate|].
  intros E H; inversion E as [E']; simpl.
  pose proof (fold_right_max_acc 0 x r) as A.
  pose proof (fold_right_max_acc x 0 r) as B.
  rewrite (Z.max_comm 0 x) in A; lia.
Qed.

Lemma title_lines_fold (m : Z) (ls : list Line) (acc : list string) :
  fold_left (title_line m) ls acc
  = (acc ++ filter (fun t => negb (PyStr.is_empty t))
              (map (TitleSpec.line_part m) ls))%list.
Proof.
  revert acc; induction ls as [|l ls IH]; intros acc; simpl;
    [rewrite app_nil_r; reflexivity|].
  rewrite IH; unfold title_line.
  change (title_line_text m l) with (TitleSpec.line_part m l).
  destruct (PyStr.is_empty (TitleSpec.line_part m l)); simpl;
    [reflexivity | rewrite <- app_assoc; reflexivity].
Qed.

Lemma title_blocks_fold (m : Z) (blocks : list Block) :
  fold_left (title_block m) blocks [] = TitleSpec.parts m blocks.
Proof.
  unfold TitleSpec.parts, text_lines_of.
  transitivity
    (fold_left (title_line m)
       (flat_map (fun b => if type b =? 0 then lines b else []) blocks) []).
  - rewrite fold_left_flat_map; apply fold_left_ext; intros acc b.
    unfold title_block; destruct (type b =? 0); reflexivity.
  - apply title_lines_fold.
Qed.

Lemma extract_title_assembled (first : Page) (rest : list Page) (m : Z) :
  TitleSpec.max_size (get_text first TEXT_DEFAULT) = Some m -> 1 <= m ->
  extract_title (first :: rest)
  = Some (TitleSpec.title m (get_text first TEXT_DEFAULT)).
Proof.
  intros E H; unfold extract_title.
  rewrite (max_size_spec _ _ E H).
  destruct (Z.eqb_spec m 0); [lia|].
  rewrite title_blocks_fold; reflexivity.
Qed.

Lemma extract_title_untitled (first : Page) (rest : list Page) :
  (forall span, In span (text_spans_of (get_text first TEXT_DEFAULT)) ->
     rounded_size span < 1) ->
  extract_title (first :: rest) = Some "Untitled".
Proof.
  intros H; apply max_size_zero_iff in H.
  unfold extract_title; rewrite H; reflexivity.
Qed.

Lemma occurs_lstrip (c : ascii) (s : string) :
  PyStr.occurs c (PyStr.lstrip s) = true -> PyStr.occurs c s = true.
Proof.
  induction s as [|d r IH]; simpl; [auto|].
  destruct (PyStr.is_space d); simpl; [|auto].
  intros H; rewrite (IH H); apply orb_true_r.
Qed.

Lemma occurs_rstrip (c : ascii) (s : string) :
  PyStr.occurs c (PyStr.rstrip s) = true -> PyStr.occurs c s = true.
Proof.
  induction s as [|d r IH]; simpl; [auto|].
  destruct (PyStr.is_space d && PyStr.is_empty (PyStr.rstrip r)); simpl;
    [discriminate|].
  destruct (Ascii.eqb d c); simpl; auto.
Qed.

Lemma occurs_strip (c : ascii) (s : string) :
  PyStr.occurs c (PyStr.strip s) = true -> PyStr.occurs c s = true.
Proof. intros H; apply occurs_lstrip, occurs_rstrip, H. Qed.

Lemma occurs_replaced (a b : ascii) (s : string) :
  a <> b -> PyStr.occurs a (PyStr.replace_char a b s) = false.
Proof.
  intros N; induction s as [|d r IH]; simpl; [reflexivity|].
  rewrite IH, orb_false_r.
  destruct (Ascii.eqb_spec d a); apply Ascii.eqb_neq; congruence.
Qed.

Lemma title_no_newline (m : Z) (blocks : list Block) :
  PyStr.occurs PyStr.newline (TitleSpec.title m blocks) = false.
Proof.
  unfold TitleSpec.title.
  destruct (PyStr.occurs _ _) eqn:E; [|reflexivity].
  apply occurs_strip in E.
  rewrite occurs_replaced in E; [discriminate|].
  unfold PyStr.newline, PyStr.space; discriminate.
Qed.

(** C5, counterexample.  One span "Hello" at size 0.4: the largest rounded
    size is 0, the title assembled at that size is "Hello", the program
    returns "Untitled". *)
Lemma title_is_assembled_fails : ~ title_is_assembled tiny_font_doc.
Proof.
  intros H.
  specialize (H (hd (sample_page []) tiny_font_doc) [] 0 eq_refl eq_refl).
  vm_compute in H; discriminate.
Qed.

(** C5, amended.  When the largest rounded size on page 1 is at least 1,
    the title is: per line of the text blocks, in order, the concatenation
    of the texts of the spans at that size, stripped, kept when not empty;
    the parts joined by one space, newlines replaced by spaces, the whole
    stripped.  It holds no newline. *)
Theorem title_assembled_at_max_size (first : Page) (rest : list Page)
  (m : Z) :
  TitleSpec.max_size (get_text first TEXT_DEFAULT) = Some m -> 1 <= m ->
  exists t,
    extract_title (first :: rest) = Some t
    /\ t = TitleSpec.title m (get_text first TEXT_DEFAULT)
    /\ PyStr.occurs PyStr.newline t = false.
Proof.
  intros E H; eexists; split; [apply extract_title_assembled; eassumption|].
  split; [reflexivity | apply title_no_newline].
Qed.

Lemma title_assembled_at_max_size_witness :
  TitleSpec.max_size (get_text (hd (sample_page []) report_doc) TEXT_DEFAULT)
  = Some 24
  /\ 1 <= 24
  /\ exists t,
      extract_title report_doc = Some t
      /\ t = "Annual Report 2024"
      /\ PyStr.occurs PyStr.newline t = false.
Proof.
  split; [reflexivity|]; split; [lia|].
  destruct (title_assembled_at_max_size (hd (sample_page []) report_doc) []
              24 eq_refl ltac:(lia)) as [t [E [T N]]].
  exists t; split; [exact E|]; split; [rewrite T; reflexivity | exact N].
Defined.

(** C6.  A first page without any text block gives the title "Untitled",
    and the extraction does not fail. *)
Theorem no_text_block_untitled (first : Page) (rest : list Page) :
  (forall b, In b (get_text first TEXT_DEFAULT) -> type b <> 0) ->
  extract_title (first :: rest) = Some "Untitled".
Proof.
  intros H; apply extract_title_untitled.
  assert (E : text_lines_of (get_text first TEXT_DEFAULT) = []).
  { unfold text_lines_of.
    induction (get_text first TEXT_DEFAULT) as [|b bs IH]; [reflexivity|].
    simpl; destruct (Z.eqb_spec (type b) 0) as [E|_].
    - exfalso; apply (H b); [left; reflexivity | exact E].
    - apply IH; intros b' Hb'; apply H; right; exact Hb'. }
  unfold text_spans_of; rewrite E; intros span [].
Qed.

Lemma no_text_block_untitled_witness :
  (forall b, In b (get_text (hd (sample_page []) image_only_doc) TEXT_DEFAULT)
     -> type b <> 0)
  /\ extract_title image_only_doc = Some "Untitled".
Proof.
  assert (H : forall b,
             In b (get_text (hd (sample_page []) image_only_doc) TEXT_DEFAULT)
             -> type b <> 0).
  { intros b [<-|[]]; simpl; lia. }
  split; [exact H|].
  exact (no_text_block_untitled (hd (sample_page []) image_only_doc) [] H).
Defined.

(** C10, counterexample.  The largest text of the page is the word
    "Untitled" at 12 points: the program returns "Untitled" although a span
    has a rounded size of at least 1. *)
Lemma untitled_iff_no_size_fails :
  ~ (extract_title untitled_report_doc = Some "Untitled"
     <-> forall span,
           In span
             (text_spans_of
                (get_text (hd (sample_page []) untitled_report_doc)
                   TEXT_DEFAULT)) ->
           rounded_size span < 1).
Proof.
  intros [H _].
  specialize (H eq_refl (sample_span "Untitled" 12 "Helvetica-Bold")).
  vm_compute in H.
  specialize (H (or_introl eq_refl)); discriminate.
Qed.

(** C10, amended.  The title is "Untitled" exactly when no span of the text
    blocks of page 1 has a rounded size of at least 1 (so also when all sizes
    round to 0), or the title assembled at the largest size is itself the
    string "Untitled". *)
Theorem untitled_iff (first : Page) (rest : list Page) :
  extract_title (first :: rest) = Some "Untitled"
  <-> (forall span,
         In span (text_spans_of (get_text first TEXT_DEFAULT)) ->
         rounded_size span < 1)
      \/ (exists m,
            TitleSpec.max_size (get_text first TEXT_DEFAULT) = Some m
            /\ 1 <= m
            /\ TitleSpec.title m (get_text first TEXT_DEFAULT) = "Untitled").
Proof.
  split.
  - intros E.
    destruct (Z.eq_dec (fold_left max_block (get_text first TEXT_DEFAULT) 0) 0)
      as [Z|NZ].
    + left; apply max_size_zero_iff; exact Z.
    + right.
      pose proof (max_blocks_flat (get_text first TEXT_DEFAULT) 0) as F.
      destruct (fold_right_max_bounds 0
                  (map rounded_size
                     (text_spans_of (get_text first TEXT_DEFAULT))))
        as [A _].
      unfold TitleSpec.max_size.
      destruct (map rounded_size
                  (text_spans_of (get_text first TEXT_DEFAULT)))
        as [|x r] eqn:L; [simpl in F; contradiction|].
      assert (M : fold_right Z.max x r
                  = fold_left max_block (get_text first TEXT_DEFAULT) 0).
      { pose proof (fold_right_max_acc 0 x r) as P.
        pose proof (fold_right_max_acc x 0 r) as Q.
        rewrite (Z.max_comm 0 x) in P; rewrite F in NZ |- *.
        simpl in NZ, A |- *; lia. }
      exists (fold_right Z.max x r).
      split; [reflexivity|]; split; [lia|].
      assert (S : TitleSpec.max_size (get_text first TEXT_DEFAULT)
                  = Some (fold_right Z.max x r))
        by (unfold TitleSpec.max_size; rewrite L; reflexivity).
      rewrite (extract_title_assembled first rest _ S) in E by lia.
      inversion E; reflexivity.
  - intros [H|[m [S [H T]]]].
    + apply extract_title_untitled; exact H.
    + rewrite (extract_title_assembled first rest m S H), T; reflexivity.
Qed.

(** ** The outline builder *)

Lemma outline_blocks_flat (ks : list StyleKey)
  (sm : list (StyleKey * string)) (n : nat) (blocks : list Block)
  (o : list OutlineEntry) :
  fold_left (outline_block ks sm n) blocks o
  = fold_left (outline_line ks sm n) (text_lines_of blocks) o.
Proof.
  unfold text_lines_of; rewrite fold_left_flat_map.
  apply fold_left_ext; intros acc b; unfold outline_block.
  destruct (type b =? 0); reflexivity.
Qed.

Lemma fold_left_map {A B C : Type} (f : A -> C -> A) (g : B -> C)
  (l : list B) (a : A) :
  fold_left f (map g l) a = fold_left (fun acc x => f acc (g x)) l a.
Proof.
  revert a; induction l as [|x l IH]; intros a; simpl;
    [reflexivity | apply IH].
Qed.

Lemma build_outline_scan (doc : Doc) (sm : list (StyleKey * string)) :
  sm <> [] -> build_outline doc sm = scan sm (numbered_lines doc) [].
Proof.
  intros H; unfold build_outline, build_outline_from, scan, numbered_lines.
  destruct sm as [|p sm']; [contradiction|].
  rewrite fold_left_flat_map; apply fold_left_ext; intros o [n pg].
  unfold outline_page; rewrite outline_blocks_flat, fold_left_map.
  reflexivity.
Qed.

Lemma scan_app (sm : list (StyleKey * string)) (l1 l2 : list (nat * Line))
  (o : list OutlineEntry) :
  scan sm (l1 ++ l2) o = scan sm l2 (scan sm l1 o).
Proof. apply fold_left_app. Qed.

Lemma last_text_snoc (o : list OutlineEntry) (e : OutlineEntry) :
  last_text (o ++ [e]) = Some (entry_text e).
Proof. unfold last_text; rewrite rev_unit; reflexivity. Qed.

Lemma append_to_last_snoc (t : string) (o : list OutlineEntry)
  (e : OutlineEntry) :
  append_to_last t (o ++ [e]) = (o ++ [merged e t])%list.
Proof.
  induction o as [|a r IH]; [reflexivity|].
  change ((a :: r) ++ [e])%list with (a :: (r ++ [e]))%list.
  change ((a :: r) ++ [merged e t])%list
    with (a :: (r ++ [merged e t]))%list.
  rewrite <- IH; simpl.
  destruct (r ++ [e])%list eqn:E; [|reflexivity].
  destruct r; discriminate.
Qed.

Lemma string_length_lower (s : string) :
  String.length (PyStr.lower s) = String.length s.
Proof. induction s; simpl; congruence. Qed.

(** One step of the scan on a recognised line that reads "syllabus" after
    an entry that holds "overview". *)
Lemma outline_line_merge (sm : list (StyleKey * string)) (n : nat)
  (o : list OutlineEntry) (e : OutlineEntry) (line : Line) (k : StyleKey) :
  line_style_key line = Some k ->
  In k (keys sm) ->
  PyStr.lower (line_text line) = "syllabus" ->
  PyStr.contains "overview" (PyStr.lower (entry_text e)) = true ->
  outline_line (keys sm) sm n (o ++ [e]) line
  = (o ++ [merged e (line_text line)])%list.
Proof.
  intros K I S V; unfold outline_line, line_style_key in *.
  destruct (spans line) as [|span more]; [discriminate|].
  inversion K; subst k.
  assert (L : String.length (line_text line) = 8%nat)
    by (rewrite <- string_length_lower, S; reflexivity).
  rewrite L; simpl Nat.ltb; cbv iota.
  apply existsb_key_In in I; rewrite I, S.
  unfold follows_overview; rewrite last_text_snoc, V; simpl.
  apply append_to_last_snoc.
Qed.

(** C2.  In any document, when the scan reaches a line whose text in lower
    case is "syllabus", whose style key is a key of the style map, and the
    outline built so far ends with an entry whose text in lower case
    contains "overview", the outline after that line is the same outline
    with the line's text appended, without a separator, to the text of its
    last entry: no entry is added, and the last entry keeps its level and
    page.  The returned outline is the scan of the remaining lines from
    there. *)
Theorem syllabus_merged_into_overview (doc : Doc)
  (sm : list (StyleKey * string)) (pre post : list (nat * Line))
  (n : nat) (line : Line) (k : StyleKey)
  (o : list OutlineEntry) (e : OutlineEntry) :
  numbered_lines doc = (pre ++ (n, line) :: post)%list ->
  scan sm pre [] = (o ++ [e])%list ->
  line_style_key line = Some k ->
  In k (keys sm) ->
  PyStr.lower (line_text line) = "syllabus" ->
  PyStr.contains "overview" (PyStr.lower (entry_text e)) = true ->
  let e' := {| level := level e;
               entry_text := entry_text e ++ line_text line;
               page := page e |} in
  scan sm (pre ++ [(n, line)]) [] = (o ++ [e'])%list
  /\ List.length (scan sm (pre ++ [(n, line)]) [])
     = List.length (scan sm pre [])
  /\ build_outline doc sm = scan sm post (o ++ [e'])%list.
Proof.
  intros D P K I S V e'.
  assert (A : scan sm (pre ++ [(n, line)]) [] = (o ++ [e'])%list).
  { rewrite scan_app, P; simpl.
    apply (outline_line_merge sm n o e line k); assumption. }
  split; [exact A|].
  split; [rewrite A, P, !length_app; reflexivity|].
  rewrite build_outline_scan, D.
  - change (pre ++ (n, line) :: post)%list
      with (pre ++ ([(n, line)] ++ post))%list.
    rewrite app_assoc, scan_app, A; reflexivity.
  - intros ->; destruct I.
Qed.

Lemma syllabus_merged_into_overview_witness :
  build_outline overview_doc (analyze_document_styles overview_doc)
  = [ {| level := "H1"; entry_text := "1. Course OverviewSyllabus";
         page := 2 |};
      {| level := "H2"; entry_text := "The course runs for ten weeks.";
         page := 2 |} ].
Proof.
  pose (l1 := {| spans := [sample_span "Course Handbook" 24 "Helvetica-Bold"] |}).
  pose (l2 := {| spans := [sample_span "1. Course Overview" 16
                             "Helvetica-Bold"] |}).
  pose (l3 := {| spans := [sample_span "Syllabus" 16 "Helvetica-Bold"] |}).
  pose (l4 := {| spans := [sample_span "The course runs for ten weeks." 10
                             "Helvetica"] |}).
  destruct (syllabus_merged_into_overview overview_doc
              (analyze_document_styles overview_doc)
              [(1%nat, l1); (2%nat, l2)] [(2%nat, l4)] 2 l3 (16, true) []
              {| level := "H1"; entry_text := "1. Course Overview";
                 page := 2 |})
    as [_ [_ B]].
  - reflexivity.
  - reflexivity.
  - reflexivity.
  - vm_compute; auto.
  - reflexivity.
  - reflexivity.
  - rewrite B; reflexivity.
Defined.














(** C7, counterexample.  A document without pages has an empty histogram,
    and the title extraction faults on it, at [doc[0]]; the pipeline calls
    it first and faults with it. *)
Lemma zero_pages_title_faults :
  style_counter [] = []
  /\ analyze_document_styles [] = []
  /\ ~ (exists t, extract_title [] = Some t)
  /\ process_pdf [] = None.
Proof.
  repeat split; intros [t H]; discriminate.
Qed.

(** C7, amended.  When the style histogram over pages 2..N is empty, as it
    is for every document of at most one page, the profiler returns the
    empty map; the builder returns the empty outline for the empty map,
    whatever the document; and for a document with at least one page the
    title extraction succeeds and the pipeline returns that title with the
    empty outline. *)
Theorem empty_histogram_empty_outline (doc : Doc) :
  (List.length doc <= 1)%nat \/ style_counter doc = [] ->
  style_counter doc = []
  /\ analyze_document_styles doc = []
  /\ (forall d, build_outline d [] = [])
  /\ build_outline doc (analyze_document_styles doc) = []
  /\ (forall first rest, doc = first :: rest ->
        exists t, extract_title doc = Some t
                  /\ process_pdf doc = Some {| title := t; outline := [] |}).
Proof.
  intros H.
  assert (C : style_counter doc = []).
  { destruct H as [H|H]; [|exact H].
    destruct doc as [|p [|q r]]; simpl in H; try reflexivity; lia. }
  assert (A : analyze_document_styles doc = [])
    by (unfold analyze_document_styles; rewrite C; reflexivity).
  split; [exact C|]; split; [exact A|]; split; [reflexivity|].
  split; [rewrite A; reflexivity|].
  intros first rest ->.
  unfold process_pdf, process_from; rewrite A.
  unfold extract_title.
  destruct (fold_left max_block (get_text first TEXT_DEFAULT) 0 =? 0);
    eexists; split; reflexivity.
Qed.

Lemma empty_histogram_empty_outline_witness :
  ((List.length single_page_doc <= 1)%nat \/ style_counter single_page_doc = [])
  /\ analyze_document_styles single_page_doc = []
  /\ process_pdf single_page_doc
     = Some {| title := "Meeting Notes"; outline := [] |}.
Proof.
  assert (H : (List.length single_page_doc <= 1)%nat
              \/ style_counter single_page_doc = [])
    by (left; simpl; lia).
  split; [exact H|].
  destruct (empty_histogram_empty_outline single_page_doc H)
    as [_ [A _]].
  split; [exact A | reflexivity].
Defined.

(** The set of heading keys is read through membership alone: any layout
    of it gives the same outline. *)
Lemma existsb_key_perm (k : StyleKey) (ks1 ks2 : list StyleKey) :
  Permutation ks1 ks2 ->
  existsb (key_eqb k) ks1 = existsb (key_eqb k) ks2.
Proof.
  intros P; apply eq_true_iff_eq; rewrite !existsb_key_In.
  split; apply Permutation_in; [exact P | symmetry; exact P].
Qed.

Lemma outline_line_perm (ks1 ks2 : list StyleKey)
  (sm : list (StyleKey * string)) (n : nat) (o : list OutlineEntry)
  (line : Line) :
  Permutation ks1 ks2 ->
  outline_line ks1 sm n o line = outline_line ks2 sm n o line.
Proof.
  intros P; unfold outline_line.
  destruct (spans line) as [|span more]; [reflexivity|].
  rewrite (existsb_key_perm _ _ _ P); reflexivity.
Qed.

Lemma build_outline_from_perm (ks1 ks2 : list StyleKey) (doc : Doc)
  (sm : list (StyleKey * string)) :
  Permutation ks1 ks2 ->
  build_outline_from ks1 doc sm = build_outline_from ks2 doc sm.
Proof.
  intros P; unfold build_outline_from.
  destruct sm; [reflexivity|].
  apply fold_left_ext; intros o [n pg]; unfold outline_page.
  apply fold_left_ext; intros o' b; unfold outline_block.
  destruct (type b =? 0); [|reflexivity].
  apply fold_left_ext; intros o'' l; apply outline_line_perm, P.
Qed.

(** * Further properties of the code *)

(** ** The counter of [analyze_document_styles] *)

Lemma counter_incr_get_same (k : StyleKey) (c : list (StyleKey * nat)) :
  dict_get k (counter_incr k c) = Some (S (counted k c)).
Proof.
  unfold counted; induction c as [|[k' n] r IH]; simpl.
  - rewrite key_eqb_refl; reflexivity.
  - destruct (key_eqb k k') eqn:E; simpl; rewrite E; [reflexivity | exact IH].
Qed.

Lemma counter_incr_get_other (k k' : StyleKey) (c : list (StyleKey * nat)) :
  k <> k' -> dict_get k (counter_incr k' c) = dict_get k c.
Proof.
  intros N; induction c as [|[k2 n] r IH]; simpl.
  - rewrite key_eqb_neq by exact N; reflexivity.
  - destruct (key_eqb k' k2) eqn:E; simpl.
    + apply key_eqb_eq in E; subst k2.
      rewrite key_eqb_neq by exact N; reflexivity.
    + destruct (key_eqb k k2); [reflexivity | exact IH].
Qed.

Lemma counted_fold (k : StyleKey) (l : list Span)
  (c : list (StyleKey * nat)) :
  counted k (fold_left (fun c s => counter_incr (style_key s) c) l c)
  = (occurrences k (map style_key l) + counted k c)%nat.
Proof.
  revert c; induction l as [|s l IH]; intros c; simpl; [reflexivity|].
  rewrite IH; unfold occurrences; simpl.
  destruct (key_eqb k (style_key s)) eqn:E.
  - apply key_eqb_eq in E; subst k.
    unfold counted at 1; rewrite counter_incr_get_same; simpl; lia.
  - unfold counted at 1; rewrite counter_incr_get_other.
    + reflexivity.
    + intros ->; rewrite key_eqb_refl in E; discriminate.
Qed.

Lemma occurrences_zero (k : StyleKey) (l : list StyleKey) :
  occurrences k l = O <-> ~ In k l.
Proof.
  unfold occurrences; induction l as [|x l IH]; simpl; [tauto|].
  destruct (key_eqb k x) eqn:E; simpl.
  - apply key_eqb_eq in E; subst; split; [discriminate | intros H; tauto].
  - rewrite IH; split; [|tauto].
    intros H [->|H']; [rewrite key_eqb_refl in E; discriminate | tauto].
Qed.

(** X1.  The counter holds, for each style, the number of substantial spans
    of pages 2..N in text blocks that have this style, and no entry for a
    style that no such span has. *)
Theorem counter_counts_spans (doc : Doc) (k : StyleKey) :
  dict_get k (style_counter doc)
  = match occurrences k (observed_styles doc) with
    | O => None
    | S n => Some (S n)
    end.
Proof.
  pose proof (counted_fold k (substantial_spans doc) []) as C.
  rewrite <- style_counter_flat in C.
  change (map style_key (substantial_spans doc)) with (observed_styles doc)
    in C.
  unfold counted in C; simpl in C; rewrite Nat.add_0_r in C.
  destruct (occurrences k (observed_styles doc)) as [|n] eqn:O.
  - apply dict_get_not_in; intros H.
    apply distinct_styles_observed in H.
    apply occurrences_zero in O; contradiction.
  - destruct (dict_get k (style_counter doc)); [congruence | discriminate].
Qed.

Lemma filter_twice {A : Type} (p q : A -> bool) (l : list A) :
  filter p (filter q l) = filter (fun x => q x && p x) l.
Proof.
  induction l as [|x l IH]; simpl; [reflexivity|].
  destruct (q x); simpl; [destruct (p x); rewrite IH; reflexivity | exact IH].
Qed.

Lemma filter_all {A : Type} (p : A -> bool) (l : list A) :
  (forall x, p x = true) -> filter p l = l.
Proof.
  intros H; induction l as [|x l IH]; simpl; [reflexivity|].
  rewrite H, IH; reflexivity.
Qed.

Lemma counter_keys_fold (ks : list StyleKey) (c : list (StyleKey * nat)) :
  keys (fold_left (fun c k => counter_incr k c) ks c)
  = (keys c
     ++ filter (fun x => negb (existsb (key_eqb x) (keys c)))
          (first_occurrences ks))%list.
Proof.
  revert c; induction ks as [|k r IH]; intros c; simpl;
    [rewrite app_nil_r; reflexivity|].
  rewrite IH, counter_incr_keys.
  destruct (existsb (key_eqb k) (keys c)) eqn:E; simpl.
  - f_equal; rewrite filter_twice; apply filter_ext; intros x.
    destruct (key_eqb x k) eqn:X; [|reflexivity].
    apply key_eqb_eq in X; subst x; rewrite E; reflexivity.
  - rewrite <- app_assoc; simpl; do 2 f_equal.
    rewrite filter_twice; apply filter_ext; intros x.
    rewrite existsb_app; simpl.
    destruct (key_eqb x k), (existsb (key_eqb x) (keys c)); reflexivity.
Qed.

Lemma distinct_styles_first_occurrences (doc : Doc) :
  distinct_styles doc = first_occurrences (observed_styles doc).
Proof.
  unfold distinct_styles, observed_styles; rewrite style_counter_flat.
  rewrite <- (fold_left_map (fun c k => counter_incr k c) style_key).
  rewrite counter_keys_fold; simpl.
  apply filter_all; reflexivity.
Qed.

(** X2.  The map of the profiler in closed form: take the styles of the
    substantial spans of pages 2..N in scan order, keep each at its first
    occurrence, sort by decreasing size keeping the order of equal sizes,
    drop the head when more than two remain, and pair what is left with H1,
    H2, H3.  How often a style occurs plays no part. *)
Theorem style_map_closed_form (doc : Doc) :
  analyze_document_styles doc
  = combine
      (drop_outlier (sorted_desc (first_occurrences (observed_styles doc))))
      heading_levels.
Proof.
  rewrite analyze_document_styles_eq.
  rewrite <- distinct_styles_first_occurrences; reflexivity.
Qed.

Lemma filter_size_insert_desc (z : Z) (x : StyleKey) (l : list StyleKey) :
  filter (fun k => fst k =? z) (insert_desc x l)
  = filter (fun k => fst k =? z) (x :: l).
Proof.
  induction l as [|y r IH]; [reflexivity|].
  simpl insert_desc; destruct (Z.ltb_spec (fst x) (fst y)) as [L|L];
    [|reflexivity].
  simpl in IH |- *; rewrite IH.
  destruct (Z.eqb_spec (fst x) z), (Z.eqb_spec (fst y) z);
    try reflexivity; lia.
Qed.

Lemma filter_size_sorted_desc (z : Z) (l : list StyleKey) :
  filter (fun k => fst k =? z) (sorted_desc l)
  = filter (fun k => fst k =? z) l.
Proof.
  induction l as [|x r IH]; [reflexivity|].
  simpl sorted_desc; rewrite filter_size_insert_desc; simpl.
  rewrite IH; reflexivity.
Qed.

(** X3.  The ranking is the stable sort of the distinct styles: it holds
    the same styles, in non-increasing order of size, and the styles of one
    size stand in the order in which the document first shows them (at a
    given size, bold ranks before regular exactly when a bold span of that
    size is counted first). *)
Theorem ranking_is_stable_sort (doc : Doc) :
  Permutation (sorted_styles doc) (distinct_styles doc)
  /\ StronglySorted (fun a b => fst b <= fst a) (sorted_styles doc)
  /\ forall z,
       filter (fun k => fst k =? z) (sorted_styles doc)
       = filter (fun k => fst k =? z) (distinct_styles doc).
Proof.
  split; [apply sorted_styles_perm|].
  split; [apply sorted_desc_sorted|].
  intros z; apply filter_size_sorted_desc.
Qed.

Lemma combine_values {A B : Type} (l : list A) (l' : list B) :
  map snd (combine l l') = firstn (List.length (combine l l')) l'.
Proof.
  revert l'; induction l as [|x l IH]; intros [|y l']; simpl;
    try reflexivity.
  rewrite IH; reflexivity.
Qed.

Lemma combine_keys_NoDup {B : Type} (l : list StyleKey) (l' : list B) :
  NoDup l -> NoDup (keys (combine l l')).
Proof.
  unfold keys; intros N; revert l'.
  induction N as [|x l H N IH]; intros [|y l']; simpl; try constructor.
  - intros I; apply in_map_iff in I; destruct I as [[k v] [E I]].
    simpl in E; subst k; apply in_combine_l in I; contradiction.
  - apply IH.
Qed.

Lemma combine_keys_sorted {B : Type} (l : list StyleKey) (l' : list B) :
  StronglySorted (fun a b => fst b <= fst a) l ->
  StronglySorted (fun a b => fst b <= fst a) (keys (combine l l')).
Proof.
  unfold keys; intros S; revert l'.
  induction S as [|x l S IH F]; intros [|y l']; simpl; try constructor.
  - apply IH.
  - apply Forall_forall; intros k I.
    apply in_map_iff in I; destruct I as [[k' v] [E I]].
    simpl in E; subst k'; apply in_combine_l in I.
    rewrite Forall_forall in F; apply F; exact I.
Qed.

Lemma final_heading_styles_sorted (doc : Doc) :
  StronglySorted (fun a b => fst b <= fst a) (final_heading_styles doc).
Proof.
  unfold final_heading_styles.
  pose proof (sorted_desc_sorted (distinct_styles doc)) as S.
  change (sorted_desc (distinct_styles doc)) with (sorted_styles doc) in S.
  destruct (2 <? List.length (sorted_styles doc))%nat; [|exact S].
  destruct (sorted_styles doc); [exact S | inversion S; assumption].
Qed.

(** X4.  The levels of the map are H1, H2, H3 handed out in this order
    without a gap, one style per level: the values, read in insertion order,
    are an initial segment of H1, H2, H3 and no key occurs twice. *)
Theorem levels_form_prefix (doc : Doc) :
  map snd (analyze_document_styles doc)
  = firstn (List.length (analyze_document_styles doc)) heading_levels
  /\ NoDup (keys (analyze_document_styles doc)).
Proof.
  rewrite analyze_document_styles_eq; split.
  - apply combine_values.
  - apply combine_keys_NoDup, final_heading_styles_NoDup.
Qed.

(** X5.  A higher level never has a smaller font: the keys of the map, read
    from H1 on, are in non-increasing order of size. *)
Theorem levels_follow_size (doc : Doc) :
  StronglySorted (fun a b => fst b <= fst a)
    (keys (analyze_document_styles doc)).
Proof.
  rewrite analyze_document_styles_eq.
  apply combine_keys_sorted, final_heading_styles_sorted.
Qed.

(** X6.  With [n] distinct styles the map has [n] entries when [n <= 2] and
    [min 3 (n - 1)] entries otherwise; some style is mapped to H3 exactly
    when there are at least four distinct styles, so three distinct styles
    give H1 and H2 only. *)
Theorem style_map_size (doc : Doc) :
  List.length (analyze_document_styles doc)
  = (if (2 <? List.length (distinct_styles doc))%nat
     then Nat.min 3 (List.length (distinct_styles doc) - 1)
     else List.length (distinct_styles doc))
  /\ ((exists k, dict_get k (analyze_document_styles doc) = Some "H3")
      <-> (4 <= List.length (distinct_styles doc))%nat).
Proof.
  pose proof (sorted_styles_NoDup doc) as N.
  rewrite analyze_document_styles_eq; unfold final_heading_styles.
  rewrite <- sorted_styles_length.
  destruct (sorted_styles doc) as [|a [|b [|c [|d r]]]]; simpl.
  - split; [reflexivity|]; split; [intros [k H]; discriminate | lia].
  - split; [reflexivity|]; split; [|lia].
    intros [k H]; destruct (key_eqb k a); discriminate.
  - split; [reflexivity|]; split; [|lia].
    intros [k H]; destruct (key_eqb k a); [discriminate|].
    destruct (key_eqb k b); discriminate.
  - split; [reflexivity|]; split; [|lia].
    intros [k H]; destruct (key_eqb k b); [discriminate|].
    destruct (key_eqb k c); discriminate.
  - split; [destruct r; reflexivity|]; split; [intros _; lia|].
    intros _; exists d.
    inversion N as [|? ? _ N1]; subst.
    inversion N1 as [|? ? Hb N2]; subst.
    inversion N2 as [|? ? Hc _]; subst.
    rewrite (key_eqb_neq d b), (key_eqb_neq d c), key_eqb_refl;
      [reflexivity | |].
    + intros ->; apply Hc; left; reflexivity.
    + intros ->; apply Hb; right; left; reflexivity.
Qed.

(** ** The title and the pipeline *)

Lemma lstrip_starts (s : string) :
  match PyStr.lstrip s with
  | EmptyString => True
  | String c _ => PyStr.is_space c = false
  end.
Proof.
  induction s as [|c r IH]; simpl; [exact I|].
  destruct (PyStr.is_space c) eqn:E; [exact IH | exact E].
Qed.

Lemma rstrip_idem (s : string) :
  PyStr.rstrip (PyStr.rstrip s) = PyStr.rstrip s.
Proof.
  induction s as [|c r IH]; simpl; [reflexivity|].
  destruct (PyStr.is_space c && PyStr.is_empty (PyStr.rstrip r)) eqn:E;
    [reflexivity|].
  simpl; rewrite IH, E; reflexivity.
Qed.

Lemma strip_idem (s : string) : PyStr.strip (PyStr.strip s) = PyStr.strip s.
Proof.
  unfold PyStr.strip.
  pose proof (lstrip_starts s) as H.
  destruct (PyStr.lstrip s) as [|c r]; [reflexivity|].
  simpl PyStr.rstrip at 2 3; rewrite H; simpl.
  rewrite H.
  change (PyStr.rstrip (String c (PyStr.rstrip r)))
    with (if PyStr.is_space c
             && PyStr.is_empty (PyStr.rstrip (PyStr.rstrip r))
          then EmptyString
          else String c (PyStr.rstrip (PyStr.rstrip r))).
  rewrite H, rstrip_idem; reflexivity.
Qed.

Lemma finish_title_no_newline (parts : list string) :
  PyStr.occurs PyStr.newline (finish_title parts) = false.
Proof.
  unfold finish_title.
  destruct (PyStr.occurs _ _) eqn:E; [|reflexivity].
  apply occurs_strip in E.
  rewrite occurs_replaced in E; [discriminate|].
  unfold PyStr.newline, PyStr.space; discriminate.
Qed.

(** X7.  For every document with a first page the extraction returns a
    title, without leading or trailing whitespace and without a newline,
    whether it is the sentinel or an assembled title. *)
Theorem title_is_clean (first : Page) (rest : list Page) :
  exists t,
    extract_title (first :: rest) = Some t
    /\ PyStr.strip t = t
    /\ PyStr.occurs PyStr.newline t = false.
Proof.
  unfold extract_title.
  destruct (fold_left max_block (get_text first TEXT_DEFAULT) 0 =? 0);
    eexists; split; try reflexivity.
  - split; reflexivity.
  - split; [apply strip_idem | apply finish_title_no_newline].
Qed.

Lemma blank_lstrip (s : string) :
  blank s = true -> PyStr.lstrip s = EmptyString.
Proof.
  induction s as [|c r IH]; simpl; [reflexivity|].
  intros H; apply andb_true_iff in H; destruct H as [C R].
  rewrite C; apply IH, R.
Qed.

Lemma blank_strip (s : string) :
  blank s = true -> PyStr.strip s = EmptyString.
Proof. intros H; unfold PyStr.strip; rewrite blank_lstrip by exact H;
  reflexivity. Qed.

Lemma blank_append (a b : string) :
  blank a = true -> blank b = true -> blank (a ++ b) = true.
Proof.
  intros A B; induction a as [|c r IH]; simpl; [exact B|].
  simpl in A; apply andb_true_iff in A; destruct A as [C R].
  rewrite C, (IH R); reflexivity.
Qed.

Lemma blank_concat (l : list string) :
  (forall s, In s l -> blank s = true) ->
  blank (String.concat "" l) = true.
Proof.
  induction l as [|x [|y r] IH]; intros H; [reflexivity | |].
  - simpl; apply H; left; reflexivity.
  - change (String.concat "" (x :: y :: r))
      with (x ++ "" ++ String.concat "" (y :: r)).
    apply blank_append; [apply H; left; reflexivity|].
    simpl append; apply IH; intros s I; apply H; right; exact I.
Qed.

Lemma no_parts (f : Line -> string) (ls : list Line) :
  (forall l, In l ls -> f l = EmptyString) ->
  filter (fun t => negb (PyStr.is_empty t)) (map f ls) = [].
Proof.
  induction ls as [|l r IH]; intros H; simpl; [reflexivity|].
  rewrite (H l) by (left; reflexivity); simpl.
  apply IH; intros l' I; apply H; right; exact I.
Qed.

(** X8.  When the largest rounded size of page 1 is at least 1 and every
    span at that size holds whitespace only, the title is the empty string:
    neither the sentinel nor the text of the smaller spans is used. *)
Theorem blank_banner_empty_title (first : Page) (rest : list Page) (m : Z) :
  TitleSpec.max_size (get_text first TEXT_DEFAULT) = Some m ->
  1 <= m ->
  (forall span,
      In span (text_spans_of (get_text first TEXT_DEFAULT)) ->
      rounded_size span = m -> blank (text span) = true) ->
  extract_title (first :: rest) = Some "".
Proof.
  intros E H B.
  rewrite (extract_title_assembled first rest m E H).
  unfold TitleSpec.title, TitleSpec.parts.
  rewrite no_parts; [reflexivity|].
  intros l I; unfold TitleSpec.line_part.
  apply blank_strip, blank_concat.
  intros s Hs; apply in_map_iff in Hs; destruct Hs as [span [<- Hs]].
  apply filter_In in Hs; destruct Hs as [Hs R].
  apply B; [|apply Z.eqb_eq, R].
  unfold text_spans_of; apply in_flat_map; exists l; auto.
Qed.

Lemma blank_banner_empty_title_witness :
  extract_title blank_banner_doc = Some "".
Proof.
  apply (blank_banner_empty_title (hd (sample_page []) blank_banner_doc) []
           30).
  - reflexivity.
  - lia.
  - intros span [<-|[<-|[]]] R; [reflexivity | vm_compute in R; discriminate].
Defined.

(** ** The entries of the outline *)

Lemma append_to_last_Forall (Q : OutlineEntry -> Prop) (t : string)
  (o : list OutlineEntry) :
  (forall e, Q e -> Q (merged e t)) ->
  Forall Q o -> Forall Q (append_to_last t o).
Proof.
  intros M; induction o as [|a r IH]; intros F; [constructor|].
  inversion F as [|? ? Qa Fr]; subst; simpl.
  destruct r as [|b r'].
  - constructor; [apply (M a Qa) | constructor].
  - constructor; [exact Qa | apply IH; exact Fr].
Qed.

Lemma append_to_last_pages (t : string) (o : list OutlineEntry) :
  map page (append_to_last t o) = map page o.
Proof.
  induction o as [|a r IH]; [reflexivity|].
  simpl; destruct r as [|b r']; [reflexivity|].
  simpl in IH |- *; rewrite IH; reflexivity.
Qed.

Lemma outline_line_Forall (Q : OutlineEntry -> Prop) (ks : list StyleKey)
  (sm : list (StyleKey * string)) (n : nat) (o : list OutlineEntry)
  (line : Line) :
  (forall e, Q e -> Q (merged e (line_text line))) ->
  (forall span more,
      spans line = span :: more ->
      (String.length (line_text line) <? 3)%nat = false ->
      existsb (key_eqb (style_key span)) ks = true ->
      Q {| level := dict_index (style_key span) sm;
           entry_text := line_text line;
           page := n |}) ->
  Forall Q o -> Forall Q (outline_line ks sm n o line).
Proof.
  intros M N F; unfold outline_line.
  destruct (spans line) as [|span more] eqn:S; [exact F|].
  destruct (String.length (line_text line) <? 3)%nat eqn:L; [exact F|].
  destruct (existsb (key_eqb (style_key span)) ks) eqn:K; [|exact F].
  destruct (String.eqb _ _ && follows_overview o).
  - apply append_to_last_Forall; assumption.
  - destruct (differs_from_last o _); [|exact F].
    apply Forall_app; split; [exact F|].
    constructor; [|constructor].
    apply (N span more); auto.
Qed.

Lemma scan_Forall (Q : OutlineEntry -> Prop)
  (sm : list (StyleKey * string)) (ls : list (nat * Line))
  (o : list OutlineEntry) :
  (forall n line, In (n, line) ls ->
     (forall e, Q e -> Q (merged e (line_text line)))
     /\ (forall span more,
           spans line = span :: more ->
           (String.length (line_text line) <? 3)%nat = false ->
           existsb (key_eqb (style_key span)) (keys sm) = true ->
           Q {| level := dict_index (style_key span) sm;
                entry_text := line_text line;
                page := n |})) ->
  Forall Q o -> Forall Q (scan sm ls o).
Proof.
  revert o; induction ls as [|[n line] r IH]; intros o H F; [exact F|].
  apply IH; [intros n' l' I; apply H; right; exact I|].
  destruct (H n line (or_introl eq_refl)) as [M N].
  apply outline_line_Forall; assumption.
Qed.

Lemma build_outline_Forall (Q : OutlineEntry -> Prop) (doc : Doc)
  (sm : list (StyleKey * string)) :
  (forall n line, In (n, line) (numbered_lines doc) ->
     (forall e, Q e -> Q (merged e (line_text line)))
     /\ (forall span more,
           spans line = span :: more ->
           (String.length (line_text line) <? 3)%nat = false ->
           existsb (key_eqb (style_key span)) (keys sm) = true ->
           Q {| level := dict_index (style_key span) sm;
                entry_text := line_text line;
                page := n |})) ->
  Forall Q (build_outline doc sm).
Proof.
  intros H; destruct sm as [|p sm'] eqn:E; [constructor|].
  rewrite build_outline_scan by discriminate.
  apply scan_Forall; [exact H | constructor].
Qed.

Lemma enumerate_In {A : Type} (l : list A) (s i : nat) (x : A) :
  In (i, x) (enumerate s l) -> (s <= i < s + List.length l)%nat.
Proof.
  revert s; induction l as [|y r IH]; intros s; simpl; [tauto|].
  intros [E|I]; [inversion E; lia | apply IH in I; lia].
Qed.

Lemma numbered_lines_range (doc : Doc) (n : nat) (line : Line) :
  In (n, line) (numbered_lines doc) -> (1 <= n <= List.length doc)%nat.
Proof.
  unfold numbered_lines; intros I.
  apply in_flat_map in I; destruct I as [[i p] [I L]].
  apply in_map_iff in L; destruct L as [l [E _]].
  simpl in E; inversion E; subst.
  apply enumerate_In in I; lia.
Qed.

(** X10.  Every entry of the outline carries the 1-based number of a page
    of the document. *)
Theorem entry_pages_in_range (doc : Doc) (sm : list (StyleKey * string)) :
  Forall (fun e => (1 <= page e <= List.length doc)%nat)
    (build_outline doc sm).
Proof.
  apply build_outline_Forall; intros n line I; split.
  - intros e H; exact H.
  - intros; simpl; apply (numbered_lines_range doc n line I).
Qed.

Lemma string_length_app (a b : string) :
  String.length (a ++ b) = (String.length a + String.length b)%nat.
Proof. induction a as [|c r IH]; simpl; [reflexivity | rewrite IH; lia]. Qed.

(** X11.  No entry has a text shorter than 3 characters: a shorter line is
    skipped, and a merge only lengthens a text. *)
Theorem entry_texts_at_least_three (doc : Doc)
  (sm : list (StyleKey * string)) :
  Forall (fun e => (3 <= String.length (entry_text e))%nat)
    (build_outline doc sm).
Proof.
  apply build_outline_Forall; intros n line _; split.
  - intros e H; simpl; rewrite string_length_app; lia.
  - intros span more _ L _; simpl.
    apply Nat.ltb_ge in L; exact L.
Qed.

Lemma dict_index_in (k : StyleKey) (sm : list (StyleKey * string)) :
  existsb (key_eqb k) (keys sm) = true ->
  dict_get k sm = Some (dict_index k sm).
Proof.
  intros H; apply existsb_key_In, dict_get_in in H.
  destruct H as [v V]; unfold dict_index; rewrite V; reflexivity.
Qed.

(** X12.  The level of every entry is the value the style map holds for
    some key: the builder invents no level, and the lookup
    [style_map[style_key]] never misses. *)
Theorem entry_levels_from_map (doc : Doc) (sm : list (StyleKey * string)) :
  Forall (fun e => exists k, dict_get k sm = Some (level e))
    (build_outline doc sm).
Proof.
  apply build_outline_Forall; intros n line _; split.
  - intros e H; exact H.
  - intros span more _ _ K; simpl.
    exists (style_key span); apply dict_index_in, K.
Qed.

Lemma dict_get_In {V : Type} (k : StyleKey) (v : V)
  (d : list (StyleKey * V)) :
  dict_get k d = Some v -> In (k, v) d.
Proof.
  induction d as [|[k' v'] r IH]; simpl; [discriminate|].
  destruct (key_eqb k k') eqn:E.
  - apply key_eqb_eq in E; subst k'.
    intros H; inversion H; left; reflexivity.
  - intros H; right; apply IH, H.
Qed.

(** X13.  In the result of the pipeline every entry of the outline has the
    level H1, H2 or H3. *)
Theorem pipeline_levels (doc : Doc) (r : Result) :
  process_pdf doc = Some r ->
  Forall (fun e => level e = "H1" \/ level e = "H2" \/ level e = "H3")
    (outline r).
Proof.
  unfold process_pdf, process_from.
  destruct (extract_title doc) as [t|]; [|discriminate].
  intros H; inversion H; subst r; simpl; clear H.
  change (build_outline_from (keys (analyze_document_styles doc)) doc
            (analyze_document_styles doc))
    with (build_outline doc (analyze_document_styles doc)).
  apply build_outline_Forall; intros n line _; split.
  - intros e H; exact H.
  - intros span more _ _ K; simpl.
    apply dict_index_in, dict_get_In in K.
    remember (dict_index (style_key span) (analyze_document_styles doc))
      as v eqn:V; clear V.
    rewrite analyze_document_styles_eq in K.
    apply in_combine_r in K; simpl in K; intuition auto.
Qed.

Lemma pipeline_levels_witness :
  exists r,
    process_pdf four_styles_doc = Some r
    /\ Forall (fun e => level e = "H1" \/ level e = "H2" \/ level e = "H3")
         (outline r).
Proof.
  eexists; split; [reflexivity|].
  apply (pipeline_levels four_styles_doc); reflexivity.
Defined.

Lemma pages_upto_weaken (b n : nat) (o : list OutlineEntry) :
  (b <= n)%nat -> pages_upto b o -> pages_upto n o.
Proof.
  intros L [S F]; split; [exact S|].
  eapply Forall_impl; [|exact F]; simpl; intros; lia.
Qed.

Lemma sorted_snoc (l : list nat) (n : nat) :
  StronglySorted le l -> Forall (fun x => (x <= n)%nat) l ->
  StronglySorted le (l ++ [n]).
Proof.
  induction 1 as [|x l S IH F]; intros B; simpl.
  - repeat constructor.
  - inversion B as [|? ? Bx Bl]; subst.
    constructor; [apply IH; exact Bl|].
    apply Forall_app; split; [exact F | repeat constructor; exact Bx].
Qed.

Lemma outline_line_pages (ks : list StyleKey)
  (sm : list (StyleKey * string)) (n : nat) (o : list OutlineEntry)
  (line : Line) :
  pages_upto n o -> pages_upto n (outline_line ks sm n o line).
Proof.
  intros [S F]; split;
    [|apply outline_line_Forall; [intros e H; exact H | intros; simpl; lia
                                 | exact F]].
  unfold outline_line.
  destruct (spans line) as [|span more]; [exact S|].
  destruct (String.length (line_text line) <? 3)%nat; [exact S|].
  destruct (existsb _ ks); [|exact S].
  destruct (String.eqb _ _ && follows_overview o).
  - rewrite append_to_last_pages; exact S.
  - destruct (differs_from_last o _); [|exact S].
    rewrite map_app; simpl; apply sorted_snoc; [exact S|].
    apply Forall_map; exact F.
Qed.

Lemma outline_pages_fold (ks : list StyleKey)
  (sm : list (StyleKey * string)) (doc : Doc) (s : nat)
  (o : list OutlineEntry) :
  pages_upto s o ->
  exists b, pages_upto b
              (fold_left (outline_page ks sm) (enumerate s doc) o).
Proof.
  revert s o; induction doc as [|p r IH]; intros s o P; simpl;
    [exists s; exact P|].
  apply (IH (S s)).
  apply (pages_upto_weaken s); [lia|].
  rewrite outline_blocks_flat.
  revert o P; induction (text_lines_of (get_text p TEXT_DEFAULT))
    as [|l ls IHl]; intros o P; simpl; [exact P|].
  apply IHl, outline_line_pages, P.
Qed.

(** X14.  The outline is in document order: along the outline the page
    numbers never decrease. *)
Theorem entry_pages_nondecreasing (doc : Doc)
  (sm : list (StyleKey * string)) :
  StronglySorted le (map page (build_outline doc sm)).
Proof.
  unfold build_outline, build_outline_from.
  destruct sm as [|p sm']; [constructor|].
  destruct (outline_pages_fold (keys (p :: sm')) (p :: sm') doc 1 [])
    as [b [S _]]; [split; constructor | exact S].
Qed.

Lemma append_to_last_length (t : string) (o : list OutlineEntry) :
  List.length (append_to_last t o) = List.length o.
Proof.
  rewrite <- (length_map page), append_to_last_pages, length_map.
  reflexivity.
Qed.

Lemma outline_line_length (sm : list (StyleKey * string)) (n : nat)
  (o : list OutlineEntry) (line : Line) :
  (List.length (outline_line (keys sm) sm n o line)
   <= List.length o + (if candidate sm line then 1 else 0))%nat.
Proof.
  unfold outline_line, candidate.
  destruct (spans line) as [|span more]; [lia|].
  destruct (String.length (line_text line) <? 3)%nat; simpl; [lia|].
  destruct (existsb _ (keys sm)); [|lia].
  destruct (String.eqb _ _ && follows_overview o).
  - rewrite append_to_last_length; lia.
  - destruct (differs_from_last o _); [rewrite length_app; simpl|]; lia.
Qed.

Lemma scan_length (sm : list (StyleKey * string)) (ls : list (nat * Line))
  (o : list OutlineEntry) :
  (List.length (scan sm ls o)
   <= List.length o
      + List.length (filter (fun nl => candidate sm (snd nl)) ls))%nat.
Proof.
  revert o; induction ls as [|[n line] r IH]; intros o; simpl; [lia|].
  specialize (IH (outline_line (keys sm) sm n o line)).
  pose proof (outline_line_length sm n o line) as L.
  change (scan sm ((n, line) :: r) o)
    with (scan sm r (outline_line (keys sm) sm n o line)).
  destruct (candidate sm line); simpl; lia.
Qed.

(** X15.  The outline has at most one entry per line of a text block that
    has spans, a text of 3 characters or more and a first span whose style
    is a key of the map; a document without such a line has an empty
    outline. *)
Theorem outline_length_bound (doc : Doc) (sm : list (StyleKey * string)) :
  (List.length (build_outline doc sm)
   <= List.length
        (filter (fun nl => candidate sm (snd nl)) (numbered_lines doc)))%nat
  /\ (filter (fun nl => candidate sm (snd nl)) (numbered_lines doc) = [] ->
      build_outline doc sm = []).
Proof.
  assert (B : (List.length (build_outline doc sm)
               <= List.length
                    (filter (fun nl => candidate sm (snd nl))
                       (numbered_lines doc)))%nat).
  { destruct sm as [|p sm'] eqn:E; [simpl; lia|].
    rewrite build_outline_scan by discriminate.
    apply (scan_length (p :: sm') (numbered_lines doc) []). }
  split; [exact B|].
  intros E; rewrite E in B; simpl in B.
  destruct (build_outline doc sm); [reflexivity | simpl in B; lia].
Qed.

Lemma outline_length_bound_witness :
  (List.length
     (build_outline repeated_heading_doc
        (analyze_document_styles repeated_heading_doc)) <= 3)%nat
  /\ build_outline single_page_doc
       (analyze_document_styles single_page_doc) = [].
Proof.
  split.
  - apply (outline_length_bound repeated_heading_doc
             (analyze_document_styles repeated_heading_doc)).
  - apply (outline_length_bound single_page_doc
             (analyze_document_styles single_page_doc)); reflexivity.
Defined.

Lemma occurs_app (c : ascii) (a b : string) :
  PyStr.occurs c (a ++ b) = PyStr.occurs c a || PyStr.occurs c b.
Proof.
  induction a as [|d r IH]; simpl; [reflexivity|].
  rewrite IH, orb_assoc; reflexivity.
Qed.

Lemma collapse_spaces_only (in_ws : bool) (s : string) :
  spaces_only (PyStr.collapse_from in_ws s).
Proof.
  unfold spaces_only; revert in_ws; induction s as [|d r IH];
    intros in_ws c; cbn [PyStr.collapse_from]; [discriminate|].
  destruct (PyStr.is_space d) eqn:D.
  - destruct in_ws; [apply IH|].
    cbn [PyStr.occurs].
    destruct (Ascii.eqb_spec " "%char c) as [<-|_];
      [reflexivity | apply IH].
  - cbn [PyStr.occurs].
    destruct (Ascii.eqb_spec d c) as [<-|_]; [congruence | apply IH].
Qed.

(** X16.  The text of an entry holds no whitespace character other than the
    plain space: tabs, newlines and the like are replaced when the line text
    is normalised, and a merge adds normalised text. *)
Theorem entry_texts_spaces_only (doc : Doc)
  (sm : list (StyleKey * string)) :
  Forall (fun e => spaces_only (entry_text e)) (build_outline doc sm).
Proof.
  apply build_outline_Forall; intros n line _; split.
  - intros e H c; simpl; rewrite occurs_app.
    intros O; apply orb_true_iff in O; destruct O as [O|O];
      [apply H, O | apply (collapse_spaces_only false _ c O)].
  - intros; simpl; apply collapse_spaces_only.
Qed.
